(** * okx-dex-sdk: EVM swap and approval executors

    A shallow embedding of [src/okx/api/swap/evm/evm-swap.ts] and
    [src/okx/api/swap/evm/evm-approve.ts], and the properties of their
    submit / poll / retry loops.

    The executors are written against three external collaborators: the
    JSON-RPC provider, the wallet (signer) and the HTTP client.  They are
    modelled as an interface ([Environment]) over an abstract world; every
    awaited call may return or reject.  Each method of the executors is a
    computation in a small monad that threads the world, propagates
    rejections like JavaScript exceptions and records every call it makes,
    with its arguments and its answer, in a trace. *)

From Stdlib Require Import ZArith List String Bool Arith Lia Sorted.
Import ListNotations.

Local Open Scope string_scope.
Local Open Scope Z_scope.
Local Open Scope list_scope.

Set Implicit Arguments.

(** ** Values exchanged with the collaborators *)

(** A thrown JavaScript value, as far as the code looks at it:
    [error.code] and [error.message]. *)
Record Error := mkError { code : option string; message : string }.

(** [new Error(msg)] carries no [code]. *)
Definition newError (msg : string) : Error := mkError None msg.

(** Outcome of an awaited call: it resolves or it rejects. *)
Inductive result (A : Type) : Type :=
| Ok (a : A)
| Thrown (e : Error).
Arguments Ok {A} a.
Arguments Thrown {A} e.

(** [provider.getFeeData()]: both suggestions are nullable. *)
Record FeeData := mkFeeData {
  fd_maxFeePerGas : option Z;
  fd_maxPriorityFeePerGas : option Z
}.

(** The [tx] object of a quote: [{ data, to, value, gas }]. *)
Record TxData := mkTxData {
  tx_data : string;
  tx_to : string;
  tx_value : option string;
  tx_gas : option string
}.

(** The request handed to [wallet.sendTransaction]. *)
Record Transaction := mkTransaction {
  data : string;
  to : string;
  value : Z;
  nonce : nat;
  gasLimit : Z;
  maxFeePerGas : Z;
  maxPriorityFeePerGas : Z
}.

Record TransactionResponse := mkResponse { hash : string }.

Record Receipt := mkReceipt { transactionHash : string; blockNumber : nat }.

Record Network := mkNetwork { name : string; chainId : nat }.

(** Overrides passed to [tokenContract.approve]. *)
Record Overrides := mkOverrides {
  ov_gasLimit : Z;
  ov_maxFeePerGas : Z;
  ov_maxPriorityFeePerGas : Z
}.

(** [APIResponse<ChainData>] of the supported-chain endpoint. *)
Record ChainData := mkChainData { dexTokenApproveAddress : option string }.
Record APIResponse := mkAPIResponse { api_data : option (list ChainData) }.

(** ** Console output

    One constructor per [console.log] / [console.error] / [console.warn]
    line of the two files, carrying the interpolated values. *)
Inductive Console :=
| LogPreparing
| LogFeeData (fd : FeeData)
| LogTransactionDetails (t : Transaction)
| LogSending
| LogSent (h : string)
| LogWaiting
| LogConfirmed (block : nat)
| ErrDropped (networkName : string) (networkChainId : nat)
| LogStillPending (attempt maxAttempts : nat)
| ErrAttemptFailed (retryCount : nat) (msg : string)
| ErrMaxRetries (e : Error)
| LogRetrying (delay : Z)
| ErrSwapFailed (e : Error)
| LogSendingApproval
| LogApprovalSent (h : string)
| LogApprovalConfirmed (block : nat)
| WarnApprovalAttemptFailed (retryCount : nat) (delay : Z)
| ErrApprovalFailed (e : Error)
| ErrDexAddress (e : Error).

(** ** Trace of effects: every external call with its answer, every timer
    and every console line, in program order. *)
Inductive Event :=
| EvGetTransactionCount (blockTag : string) (r : result nat)
| EvGetFeeData (r : result FeeData)
| EvSendTransaction (t : Transaction) (r : result TransactionResponse)
| EvGetTransactionReceipt (h : string) (r : result (option Receipt))
| EvGetTransaction (h : string) (r : result (option TransactionResponse))
| EvGetNetwork (r : result Network)
| EvSetTimeout (ms : Z)
| EvAllowance (token owner spender : string) (r : result Z)
| EvApprove (token spender : string) (amount : Z) (o : Overrides)
            (r : result TransactionResponse)
| EvWait (h : string) (r : result Receipt)
| EvRequest (method path chain : string) (r : result APIResponse)
| EvConsole (c : Console).

(** ** The collaborators as an interface over an abstract world *)
Class Environment (W : Type) := {
  (** [provider.getTransactionCount(arg)] *)
  getTransactionCount : string -> W -> result nat * W;
  (** [provider.getFeeData()] *)
  getFeeData : W -> result FeeData * W;
  (** [wallet.sendTransaction(transaction)] *)
  sendTransaction : Transaction -> W -> result TransactionResponse * W;
  (** [provider.getTransactionReceipt(hash)], [null] when absent *)
  getTransactionReceipt : string -> W -> result (option Receipt) * W;
  (** [provider.getTransaction(hash)], [null] when unknown *)
  getTransaction : string -> W -> result (option TransactionResponse) * W;
  (** [provider.getNetwork()] *)
  getNetwork : W -> result Network * W;
  (** [setTimeout(resolve, ms)]: time passes, the world may change *)
  setTimeout : Z -> W -> W;
  (** [tokenContract.allowance(owner, spender)] on the token at [token] *)
  allowance : string -> string -> string -> W -> result Z * W;
  (** [tokenContract.approve(spender, amount, overrides)] *)
  approve : string -> string -> Z -> Overrides -> W ->
            result TransactionResponse * W;
  (** [tx.wait()] on the response of [approve] *)
  wait : string -> W -> result Receipt * W;
  (** [httpClient.request(method, path, { chainId })] *)
  request : string -> string -> string -> W -> result APIResponse * W;
  (** [ethers.BigNumber.from(s)] on a string: a pure parse that may throw *)
  BigNumber_from : string -> result Z
}.

(** ** The monad: world passing, exceptions, and a trace of effects *)
Section Monad.
Context {W : Type}.

Definition M (A : Type) : Type := W -> result A * W * list Event.

Definition ret {A} (a : A) : M A := fun w => (Ok a, w, []).

Definition throw {A} (e : Error) : M A := fun w => (Thrown e, w, []).

Definition bind {A B} (m : M A) (k : A -> M B) : M B :=
  fun w =>
    match m w with
    | (Ok a, w1, t1) =>
        match k a w1 with
        | (r, w2, t2) => (r, w2, t1 ++ t2)
        end
    | (Thrown e, w1, t1) => (Thrown e, w1, t1)
    end.

(** [try { body } catch (error) { handler }] *)
Definition try_catch {A} (body : M A) (handler : Error -> M A) : M A :=
  fun w =>
    match body w with
    | (Ok a, w1, t1) => (Ok a, w1, t1)
    | (Thrown e, w1, t1) =>
        match handler e w1 with
        | (r, w2, t2) => (r, w2, t1 ++ t2)
        end
    end.

(** A pure step that may throw. *)
Definition lift {A} (r : result A) : M A := fun w => (r, w, []).

(** An awaited call of the environment, recorded in the trace. *)
Definition call {A} (f : W -> result A * W) (ev : result A -> Event) : M A :=
  fun w => match f w with (r, w1) => (r, w1, [ev r]) end.

Definition console (c : Console) : M unit :=
  fun w => (Ok tt, w, [EvConsole c]).

(** Projections of a finished run. *)
Definition outcome {A} (x : result A * W * list Event) : result A :=
  fst (fst x).
Definition world {A} (x : result A * W * list Event) : W := snd (fst x).
Definition trace {A} (x : result A * W * list Event) : list Event := snd x.
End Monad.

Notation "x <- m ;; k" := (bind m (fun x => k))
  (at level 61, m at next level, right associativity).
Notation "m ;;; k" := (bind m (fun _ => k))
  (at level 61, right associativity).

(** ** Configuration *)

(** [config.evm?.wallet]: the wallet object, when configured; its calls are
    in [Environment], its [address] is data. *)
Record EVMWallet := mkWallet { address : string }.
Record OKXConfig := mkConfig { evm_wallet : option EVMWallet }.

(** [ChainConfig], the two fields the executors read.  [maxRetries] is an
    optional count, taken in the natural numbers. *)
Record ChainConfig := mkChainConfig {
  explorer : string;
  maxRetries : option nat
}.

(** [this.networkConfig.maxRetries || 3]: an absent value and [0] are both
    falsy and give the default. *)
Definition maxRetries_or_3 (networkConfig : ChainConfig) : nat :=
  match maxRetries networkConfig with
  | Some (S n) => S n
  | Some O | None => 3%nat
  end.

(** BigNumber arithmetic: [a.mul(b).div(c)], [div] truncating. *)
Definition mul_div (a b c : Z) : Z := Z.quot (a * b) c.

(** Truthiness of an optional string: [undefined] and the empty string are falsy. *)
Definition truthy (s : option string) : option string :=
  match s with
  | Some EmptyString => None
  | Some x => Some x
  | None => None
  end.

Definition code_is (e : Error) (c : string) : bool :=
  match code e with
  | Some c' => String.eqb c' c
  | None => false
  end.

(** [await new Promise((resolve) => setTimeout(resolve, ms))] *)
Definition sleep {W} `{Environment W} (ms : Z) : M unit :=
  fun w => (Ok tt, setTimeout ms w, [EvSetTimeout ms]).

(** ** Swap results *)
Record Token := mkToken { decimal : string; tokenSymbol : string }.

Record RouterResult := mkRouterResult {
  fromToken : Token;
  toToken : Token;
  fromTokenAmount : string;
  toTokenAmount : string;
  priceImpactPercentage : string
}.

Record QuoteData := mkQuoteData {
  routerResult : option RouterResult;
  tx : option TxData
}.

Record SwapResponseData := mkSwapResponseData {
  swap_data : option (list QuoteData)
}.

Record TokenDetails := mkTokenDetails {
  td_symbol : string;
  td_amount : string;
  td_decimal : string
}.

Record SwapDetails := mkSwapDetails {
  det_fromToken : TokenDetails;
  det_toToken : TokenDetails;
  priceImpact : string
}.

Record SwapResult := mkSwapResult {
  success : bool;
  transactionId : string;
  explorerUrl : string;
  details : SwapDetails
}.

(** ** [evm-swap.ts]: class [EVMSwapExecutor] *)
Module EVMSwapExecutor.
Section Executor.
Context {W : Type} `{Environment W}.

(** Constructor arguments, kept as [private readonly] fields. *)
Variable config : OKXConfig.
Variable networkConfig : ChainConfig.

(** [(Number(amount) / Math.pow(10, parseInt(String(decimal)))).toFixed(6)]:
    floating-point formatting, left abstract. *)
Variable displayAmount : string -> string -> string.

Variable SwapParams : Type.

(** The constructor refuses a configuration without a wallet. *)
Definition constructor : result unit :=
  match evm_wallet config with
  | None => Thrown (newError "EVM configuration required")
  | Some _ => Ok tt
  end.

Definition maxAttempts : nat := 30.

(** The confirmation loop (lines 111-144):
    [while (attempts < maxAttempts) { ... attempts++ }] followed by the
    time-out throw.  [fuel] is the loop variant [maxAttempts - attempts]. *)
Fixpoint pollReceipt (fuel attempts : nat) (h : string) : M Receipt :=
  match fuel with
  | O =>
      throw (newError
               "Transaction confirmation timed out - check explorer for status")
  | S fuel' =>
      receipt <- call (getTransactionReceipt h) (EvGetTransactionReceipt h) ;;
      match receipt with
      | Some receipt =>
          console (LogConfirmed (blockNumber receipt)) ;;;
          ret receipt
      | None =>
          pendingTx <- call (getTransaction h) (EvGetTransaction h) ;;
          match pendingTx with
          | None =>
              network <- call getNetwork EvGetNetwork ;;
              console (ErrDropped (name network) (chainId network)) ;;;
              throw (newError
                       "Transaction dropped - check network and gas prices")
          | Some _ =>
              console (LogStillPending (attempts + 1) maxAttempts) ;;;
              sleep 2000 ;;;
              pollReceipt fuel' (S attempts) h
          end
      end
  end.

(** The wait for a submitted transaction (lines 104-144): the initial
    delay, then the confirmation loop from [attempts = 0]. *)
Definition waitForConfirmation (h : string) : M Receipt :=
  sleep 5000 ;;;
  console LogWaiting ;;;
  let attempts := O in
  pollReceipt (maxAttempts - attempts) attempts h.

Definition gasMultiplier : Z := 110.

(** The body of the [try] block (lines 60-144) at a given [retryCount]. *)
Definition attempt (tx : TxData) (retryCount : nat) : M Receipt :=
  console LogPreparing ;;;
  nonce <- call (getTransactionCount "latest")
                (EvGetTransactionCount "latest") ;;
  feeData <- call getFeeData EvGetFeeData ;;
  console (LogFeeData feeData) ;;;
  let baseFee :=
    match fd_maxFeePerGas feeData with Some b => b | None => 0 end in
  let priorityFee :=
    match fd_maxPriorityFeePerGas feeData with
    | Some p => p
    | None => 3000000000
    end in
  value <- lift (match truthy (tx_value tx) with
                 | Some v => BigNumber_from v
                 | None => Ok 0
                 end) ;;
  gas <- lift (match truthy (tx_gas tx) with
               | Some g => BigNumber_from g
               | None => Ok 0
               end) ;;
  let transaction :=
    {| data := tx_data tx;
       to := tx_to tx;
       value := value;
       nonce := (nonce + retryCount)%nat;
       gasLimit := mul_div gas gasMultiplier 100;
       maxFeePerGas := mul_div baseFee gasMultiplier 100;
       maxPriorityFeePerGas := mul_div priorityFee gasMultiplier 100 |} in
  console (LogTransactionDetails transaction) ;;;
  console LogSending ;;;
  response <- call (sendTransaction transaction)
                   (EvSendTransaction transaction) ;;
  console (LogSent (hash response)) ;;;
  waitForConfirmation (hash response).

(** [while (retryCount < maxRetries) { try { ... } catch (error) { ... } }]
    and the throw after the loop (lines 58-170).  [fuel] is the loop
    variant [maxRetries - retryCount]; the test [retryCount === maxRetries]
    of the handler is kept as written. *)
Fixpoint retryLoop (tx : TxData) (maxRetries : nat) (fuel retryCount : nat)
  : M Receipt :=
  match fuel with
  | O => throw (newError "Max retries exceeded")
  | S fuel' =>
      try_catch (attempt tx retryCount)
        (fun error =>
           let retryCount := S retryCount in
           console (ErrAttemptFailed retryCount (message error)) ;;;
           if code_is error "INSUFFICIENT_FUNDS" then
             throw (newError "Insufficient funds for transaction")
           else if code_is error "NONCE_EXPIRED" then
             throw (newError "Transaction nonce expired")
           else if (retryCount =? maxRetries)%nat then
             console (ErrMaxRetries error) ;;;
             throw error
           else
             let delay := 2000 * Z.of_nat retryCount in
             console (LogRetrying delay) ;;;
             sleep delay ;;;
             retryLoop tx maxRetries fuel' retryCount)
  end.

Definition executeEvmTransaction (tx : TxData) : M Receipt :=
  match evm_wallet config with
  | None => throw (newError "EVM wallet required")
  | Some _ =>
      let retryCount := O in
      let maxRetries := maxRetries_or_3 networkConfig in
      retryLoop tx maxRetries (maxRetries - retryCount) retryCount
  end.

Definition formatSwapResult (txHash : string) (routerResult : RouterResult)
  : SwapResult :=
  let displayFromAmount :=
    displayAmount (fromTokenAmount routerResult)
                  (decimal (fromToken routerResult)) in
  let displayToAmount :=
    displayAmount (toTokenAmount routerResult)
                  (decimal (toToken routerResult)) in
  {| success := true;
     transactionId := txHash;
     explorerUrl := (explorer networkConfig ++ "/" ++ txHash)%string;
     details :=
       {| det_fromToken :=
            {| td_symbol := tokenSymbol (fromToken routerResult);
               td_amount := displayFromAmount;
               td_decimal := decimal (fromToken routerResult) |};
          det_toToken :=
            {| td_symbol := tokenSymbol (toToken routerResult);
               td_amount := displayToAmount;
               td_decimal := decimal (toToken routerResult) |};
          priceImpact := priceImpactPercentage routerResult |} |}.

Definition executeSwap (swapData : SwapResponseData) (params : SwapParams)
  : M SwapResult :=
  let quoteData :=
    match swap_data swapData with
    | Some (q :: _) => Some q
    | _ => None
    end in
  match quoteData with
  | None => throw (newError "Invalid swap data: missing router result")
  | Some quoteData =>
      match routerResult quoteData with
      | None => throw (newError "Invalid swap data: missing router result")
      | Some routerResult =>
          match tx quoteData with
          | None => throw (newError "Missing transaction data")
          | Some tx =>
              try_catch
                (result <- executeEvmTransaction tx ;;
                 ret (formatSwapResult (transactionHash result) routerResult))
                (fun error =>
                   console (ErrSwapFailed error) ;;;
                   throw error)
          end
      end
  end.
End Executor.
End EVMSwapExecutor.

(** ** [evm-approve.ts]: class [EVMApproveExecutor] *)
Module EVMApproveExecutor.
Section Executor.
Context {W : Type} `{Environment W}.

Variable config : OKXConfig.
Variable networkConfig : ChainConfig.
Variable SwapParams : Type.

Definition DEFAULT_GAS_MULTIPLIER : Z := 150.

Definition constructor : result unit :=
  match evm_wallet config with
  | None => Thrown (newError "EVM configuration required")
  | Some _ => Ok tt
  end.

Definition executeSwap (swapData : SwapResponseData) (params : SwapParams)
  : @M W SwapResult :=
  throw (newError "Swap execution not supported in approval executor").

Definition getAllowance (tokenAddress ownerAddress spenderAddress : string)
  : M Z :=
  call (allowance tokenAddress ownerAddress spenderAddress)
       (EvAllowance tokenAddress ownerAddress spenderAddress).

Definition getDexContractAddress (chainId : string) : M string :=
  try_catch
    (response <- call (request "GET"
                         "/api/v5/dex/aggregator/supported/chain" chainId)
                      (EvRequest "GET"
                         "/api/v5/dex/aggregator/supported/chain" chainId) ;;
     let found :=
       match api_data response with
       | Some (c :: _) => truthy (dexTokenApproveAddress c)
       | _ => None
       end in
     match found with
     | None =>
         throw (newError
                  ("No dex contract address found for chain " ++ chainId)%string)
     | Some a => ret a
     end)
    (fun error =>
       console (ErrDexAddress error) ;;;
       throw error).

(** The body of the [try] block of the approval loop (lines 152-177). *)
Definition attempt (tokenAddress spenderAddress : string) (amount : Z)
  : M Receipt :=
  console LogSendingApproval ;;;
  feeData <- call getFeeData EvGetFeeData ;;
  let baseFee :=
    match fd_maxFeePerGas feeData with Some b => b | None => 0 end in
  let priorityFee :=
    match fd_maxPriorityFeePerGas feeData with
    | Some p => p
    | None => 3000000000
    end in
  let overrides :=
    {| ov_gasLimit := 100000;
       ov_maxFeePerGas := mul_div baseFee DEFAULT_GAS_MULTIPLIER 100;
       ov_maxPriorityFeePerGas :=
         mul_div priorityFee DEFAULT_GAS_MULTIPLIER 100 |} in
  tx <- call (approve tokenAddress spenderAddress amount overrides)
             (EvApprove tokenAddress spenderAddress amount overrides) ;;
  console (LogApprovalSent (hash tx)) ;;;
  receipt <- call (wait (hash tx)) (EvWait (hash tx)) ;;
  console (LogApprovalConfirmed (blockNumber receipt)) ;;;
  ret receipt.

(** The approval retry loop (lines 150-190); [fuel] is
    [maxRetries - retryCount]. *)
Fixpoint retryLoop (tokenAddress spenderAddress : string) (amount : Z)
         (maxRetries : nat) (fuel retryCount : nat) : M Receipt :=
  match fuel with
  | O => throw (newError "Max retries exceeded for approval transaction")
  | S fuel' =>
      try_catch (attempt tokenAddress spenderAddress amount)
        (fun error =>
           let retryCount := S retryCount in
           console (WarnApprovalAttemptFailed retryCount
                      (2000 * Z.of_nat retryCount)) ;;;
           if (retryCount =? maxRetries)%nat then throw error
           else
             sleep (2000 * Z.of_nat retryCount) ;;;
             retryLoop tokenAddress spenderAddress amount maxRetries
                       fuel' retryCount)
  end.

Definition executeApprovalTransaction
           (tokenAddress spenderAddress : string) (amount : Z) : M Receipt :=
  match evm_wallet config with
  | None => throw (newError "EVM wallet required")
  | Some _ =>
      let retryCount := O in
      let maxRetries := maxRetries_or_3 networkConfig in
      retryLoop tokenAddress spenderAddress amount maxRetries
                (maxRetries - retryCount) retryCount
  end.

(** The value [{ transactionHash }] that [handleTokenApproval] resolves
    to is modelled by the hash itself. *)
Definition handleTokenApproval (chainId tokenAddress amount : string)
  : M string :=
  match evm_wallet config with
  | None => throw (newError "EVM wallet required")
  | Some wallet =>
      dexContractAddress <- getDexContractAddress chainId ;;
      currentAllowance <-
        getAllowance tokenAddress (address wallet) dexContractAddress ;;
      requiredAmount <- lift (BigNumber_from amount) ;;
      if currentAllowance >=? requiredAmount then
        throw (newError "Token already approved for the requested amount")
      else
        try_catch
          (result <- executeApprovalTransaction
                       tokenAddress dexContractAddress requiredAmount ;;
           ret (transactionHash result))
          (fun error =>
             console (ErrApprovalFailed error) ;;;
             throw error)
  end.
End Executor.
End EVMApproveExecutor.

(** ** A scripted world

    A concrete [Environment] for running the executors: every kind of call
    has its own queue of prepared answers and takes the next one; a call
    whose queue is empty rejects. *)
Record Script := mkScript {
  s_counts : list (result nat);
  s_fees : list (result FeeData);
  s_sends : list (result TransactionResponse);
  s_receipts : list (result (option Receipt));
  s_pending : list (result (option TransactionResponse));
  s_networks : list (result Network);
  s_allowances : list (result Z);
  s_approves : list (result TransactionResponse);
  s_waits : list (result Receipt);
  s_requests : list (result APIResponse)
}.

Definition unscripted : Error := mkError (Some "SERVER_ERROR") "unscripted call".

Definition next {A} (q : list (result A)) : result A * list (result A) :=
  match q with
  | [] => (Thrown unscripted, [])
  | r :: q' => (r, q')
  end.

(** Decimal strings, as far as the examples need [BigNumber.from]. *)
Definition digit (c : Ascii.ascii) : option Z :=
  let n := Z.of_nat (Ascii.nat_of_ascii c) in
  if (48 <=? n) && (n <=? 57) then Some (n - 48) else None.

Fixpoint decimal_from (acc : Z) (s : string) : result Z :=
  match s with
  | EmptyString => Ok acc
  | String c s' =>
      match digit c with
      | Some d => decimal_from (10 * acc + d) s'
      | None => Thrown (mkError (Some "INVALID_ARGUMENT") "invalid BigNumber string")
      end
  end.

Definition scripted_BigNumber_from (s : string) : result Z :=
  match s with
  | EmptyString => Thrown (mkError (Some "INVALID_ARGUMENT") "invalid BigNumber string")
  | _ => decimal_from 0 s
  end.

#[export] Instance scripted : Environment Script := {
  getTransactionCount _ w :=
    let (r, q) := next (s_counts w) in
    (r, mkScript q (s_fees w) (s_sends w) (s_receipts w) (s_pending w)
          (s_networks w) (s_allowances w) (s_approves w) (s_waits w)
          (s_requests w));
  getFeeData w :=
    let (r, q) := next (s_fees w) in
    (r, mkScript (s_counts w) q (s_sends w) (s_receipts w) (s_pending w)
          (s_networks w) (s_allowances w) (s_approves w) (s_waits w)
          (s_requests w));
  sendTransaction _ w :=
    let (r, q) := next (s_sends w) in
    (r, mkScript (s_counts w) (s_fees w) q (s_receipts w) (s_pending w)
          (s_networks w) (s_allowances w) (s_approves w) (s_waits w)
          (s_requests w));
  getTransactionReceipt _ w :=
    let (r, q) := next (s_receipts w) in
    (r, mkScript (s_counts w) (s_fees w) (s_sends w) q (s_pending w)
          (s_networks w) (s_allowances w) (s_approves w) (s_waits w)
          (s_requests w));
  getTransaction _ w :=
    let (r, q) := next (s_pending w) in
    (r, mkScript (s_counts w) (s_fees w) (s_sends w) (s_receipts w) q
          (s_networks w) (s_allowances w) (s_approves w) (s_waits w)
          (s_requests w));
  getNetwork w :=
    let (r, q) := next (s_networks w) in
    (r, mkScript (s_counts w) (s_fees w) (s_sends w) (s_receipts w)
          (s_pending w) q (s_allowances w) (s_approves w) (s_waits w)
          (s_requests w));
  setTimeout _ w := w;
  allowance _ _ _ w :=
    let (r, q) := next (s_allowances w) in
    (r, mkScript (s_counts w) (s_fees w) (s_sends w) (s_receipts w)
          (s_pending w) (s_networks w) q (s_approves w) (s_waits w)
          (s_requests w));
  approve _ _ _ _ w :=
    let (r, q) := next (s_approves w) in
    (r, mkScript (s_counts w) (s_fees w) (s_sends w) (s_receipts w)
          (s_pending w) (s_networks w) (s_allowances w) q (s_waits w)
          (s_requests w));
  wait _ w :=
    let (r, q) := next (s_waits w) in
    (r, mkScript (s_counts w) (s_fees w) (s_sends w) (s_receipts w)
          (s_pending w) (s_networks w) (s_allowances w) (s_approves w) q
          (s_requests w));
  request _ _ _ w :=
    let (r, q) := next (s_requests w) in
    (r, mkScript (s_counts w) (s_fees w) (s_sends w) (s_receipts w)
          (s_pending w) (s_networks w) (s_allowances w) (s_approves w)
          (s_waits w) q);
  BigNumber_from := scripted_BigNumber_from
}.

Definition emptyScript : Script := mkScript [] [] [] [] [] [] [] [] [] [].

Definition walletConfig : OKXConfig :=
  mkConfig (Some (mkWallet "0xOwner")).

Definition defaultChain : ChainConfig :=
  mkChainConfig "https://explorer.example/tx" None.

Definition sampleTx : TxData :=
  mkTxData "0xdata" "0xrouter" (Some "0") (Some "200000").

(** ** Reading a trace *)

(** A submission is a [wallet.sendTransaction] or a [tokenContract.approve]
    call, whatever its answer. *)
Definition isSubmission (e : Event) : bool :=
  match e with
  | EvSendTransaction _ _ | EvApprove _ _ _ _ _ => true
  | _ => false
  end.

Definition submitted (t : list Event) : nat :=
  List.length (filter isSubmission t).

(** Life cycle of attempts as the console shows it: an attempt is opened by
    its first line ("Preparing transaction..." / "Sending approval
    transaction..."), submits at most once, and is closed by the line that
    reports its outcome (confirmed, or attempt failed). *)
Inductive Phase := Idle | Started | Submitted.

Definition phaseStep (p : Phase) (e : Event) : option Phase :=
  match e, p with
  | EvConsole LogPreparing, Idle
  | EvConsole LogSendingApproval, Idle => Some Started
  | EvConsole LogPreparing, _
  | EvConsole LogSendingApproval, _ => None
  | EvSendTransaction _ _, Started
  | EvApprove _ _ _ _ _, Started => Some Submitted
  | EvSendTransaction _ _, _
  | EvApprove _ _ _ _ _, _ => None
  | EvConsole (LogConfirmed _), Submitted
  | EvConsole (LogApprovalConfirmed _), Submitted => Some Idle
  | EvConsole (LogConfirmed _), _
  | EvConsole (LogApprovalConfirmed _), _ => None
  | EvConsole (ErrAttemptFailed _ _), Idle
  | EvConsole (WarnApprovalAttemptFailed _ _), Idle => None
  | EvConsole (ErrAttemptFailed _ _), _
  | EvConsole (WarnApprovalAttemptFailed _ _), _ => Some Idle
  | _, _ => Some p
  end.

Fixpoint phases (p : Phase) (t : list Event) : option Phase :=
  match t with
  | [] => Some p
  | e :: t' =>
      match phaseStep p e with
      | Some p' => phases p' t'
      | None => None
      end
  end.

(** What an attempt has read so far: its index (the [retryCount] it runs
    with, i.e. the count reported by the last failure line), and the
    answers of its [getTransactionCount] and [getFeeData] calls. *)
Record View := mkView {
  index : nat;
  countSeen : option nat;
  feesSeen : option FeeData
}.

Definition firstView : View := mkView 0 None None.

Definition observe (v : View) (e : Event) : View :=
  match e with
  | EvGetTransactionCount _ (Ok c) => mkView (index v) (Some c) (feesSeen v)
  | EvGetFeeData (Ok f) => mkView (index v) (countSeen v) (Some f)
  | EvConsole (ErrAttemptFailed retryCount _)
  | EvConsole (WarnApprovalAttemptFailed retryCount _) =>
      mkView retryCount None None
  | _ => v
  end.

(** The submitted swap transactions, each with what its attempt had read. *)
Fixpoint submissions (v : View) (t : list Event) : list (View * Transaction) :=
  match t with
  | [] => []
  | e :: t' =>
      match e with
      | EvSendTransaction x _ => (v, x) :: submissions (observe v e) t'
      | _ => submissions (observe v e) t'
      end
  end.

(** The submitted approvals, likewise. *)
Fixpoint approvals (v : View) (t : list Event) : list (View * Overrides) :=
  match t with
  | [] => []
  | e :: t' =>
      match e with
      | EvApprove _ _ _ o _ => (v, o) :: approvals (observe v e) t'
      | _ => approvals (observe v e) t'
      end
  end.

(** The network suggestion with the fallbacks of the code applied. *)
Definition baseFeeOf (f : FeeData) : Z :=
  match fd_maxFeePerGas f with Some b => b | None => 0 end.

Definition priorityFeeOf (f : FeeData) : Z :=
  match fd_maxPriorityFeePerGas f with Some p => p | None => 3000000000 end.

(** The answer of the last [sendTransaction] call of a trace. *)
Fixpoint lastSent (t : list Event) : option (result TransactionResponse) :=
  match t with
  | [] => None
  | e :: t' =>
      match lastSent t' with
      | Some r => Some r
      | None =>
          match e with
          | EvSendTransaction _ r => Some r
          | _ => None
          end
      end
  end.

(** A provider answers [getTransactionReceipt(h)] with the receipt of [h]:
    the check that the receipts of a trace carry the hash asked for. *)
Definition receiptMatches (e : Event) : bool :=
  match e with
  | EvGetTransactionReceipt h (Ok (Some r)) => String.eqb (transactionHash r) h
  | _ => true
  end.

Definition receiptsMatch (t : list Event) : bool := forallb receiptMatches t.

(** The timers set, in order, and the number of receipt polls. *)
Fixpoint timers (t : list Event) : list Z :=
  match t with
  | [] => []
  | EvSetTimeout ms :: t' => ms :: timers t'
  | _ :: t' => timers t'
  end.

Definition isReceiptPoll (e : Event) : bool :=
  match e with
  | EvGetTransactionReceipt _ _ => true
  | _ => false
  end.

Definition receiptPolls (t : list Event) : nat :=
  List.length (filter isReceiptPoll t).

(** The errors by which a confirmation wait ends without a receipt. *)
Definition Dropped : Error :=
  newError "Transaction dropped - check network and gas prices".

Definition TimedOut : Error :=
  newError "Transaction confirmation timed out - check explorer for status".

(** One time unit of the specification is a second; timers are in
    milliseconds. *)
Definition timeUnit : Z := 1000.

(** The errors raised after the retry loops; no path through a loop that
    ran an attempt reaches them. *)
Definition MaxRetriesExceeded : Error := newError "Max retries exceeded".

Definition ApprovalMaxRetriesExceeded : Error :=
  newError "Max retries exceeded for approval transaction".

(** The swap loop gives up at once on these two codes. *)
Definition terminal (e : Error) : bool :=
  code_is e "INSUFFICIENT_FUNDS" || code_is e "NONCE_EXPIRED".

Section Scenarios.
Context {W : Type} `{Environment W}.

(** [StillPending h n w w']: from world [w], [n] successive polls for
    [h] find no receipt and the transaction still known, each followed
    by the 2000 ms pause; [w'] is the world before the next poll. *)
Inductive StillPending (h : string) : nat -> W -> W -> Prop :=
| pending_none w : StillPending h 0 w w
| pending_more n w w1 w2 w' p :
    getTransactionReceipt h w = (Ok None, w1) ->
    getTransaction h w1 = (Ok (Some p), w2) ->
    StillPending h n (setTimeout 2000 w2) w' ->
    StillPending h (S n) w w'.

Variable config : OKXConfig.
Variable networkConfig : ChainConfig.

(** [SwapAllFail tx k w e]: started in world [w] with [retryCount = k],
    every remaining attempt of the swap loop, up to the last one allowed
    by [maxRetries], fails with an error that is not terminal; the last
    one fails with [e]. *)
Inductive SwapAllFail (tx : TxData) : nat -> W -> Error -> Prop :=
| swap_fail_last k w e :
    S k = maxRetries_or_3 networkConfig ->
    outcome (EVMSwapExecutor.attempt tx k w) = Thrown e ->
    terminal e = false ->
    SwapAllFail tx k w e
| swap_fail_more k w e e' :
    (S k < maxRetries_or_3 networkConfig)%nat ->
    outcome (EVMSwapExecutor.attempt tx k w) = Thrown e ->
    terminal e = false ->
    SwapAllFail tx (S k)
      (setTimeout (2000 * Z.of_nat (S k))
         (world (EVMSwapExecutor.attempt tx k w))) e' ->
    SwapAllFail tx k w e'.

(** The same for the approval loop, where every error is retried. *)
Inductive ApprovalAllFail (token spender : string) (amount : Z)
  : nat -> W -> Error -> Prop :=
| approval_fail_last k w e :
    S k = maxRetries_or_3 networkConfig ->
    outcome (EVMApproveExecutor.attempt token spender amount w) = Thrown e ->
    ApprovalAllFail token spender amount k w e
| approval_fail_more k w e e' :
    (S k < maxRetries_or_3 networkConfig)%nat ->
    outcome (EVMApproveExecutor.attempt token spender amount w) = Thrown e ->
    ApprovalAllFail token spender amount (S k)
      (setTimeout (2000 * Z.of_nat (S k))
         (world (EVMApproveExecutor.attempt token spender amount w))) e' ->
    ApprovalAllFail token spender amount k w e'.
End Scenarios.

(** What the request of an attempt must look like, given what the
    attempt has read. *)
Definition built_from (k : nat) (s : View * Transaction) : Prop :=
  exists c fd,
    countSeen (fst s) = Some c /\
    feesSeen (fst s) = Some fd /\
    nonce (snd s) = (c + k)%nat /\
    maxFeePerGas (snd s) =
      mul_div (baseFeeOf fd) EVMSwapExecutor.gasMultiplier 100 /\
    maxPriorityFeePerGas (snd s) =
      mul_div (priorityFeeOf fd) EVMSwapExecutor.gasMultiplier 100.

(** The same for the overrides of an approval. *)
Definition approval_built_from (s : View * Overrides) : Prop :=
  exists fd,
    feesSeen (fst s) = Some fd /\
    ov_maxFeePerGas (snd s) =
      mul_div (baseFeeOf fd) EVMApproveExecutor.DEFAULT_GAS_MULTIPLIER 100 /\
    ov_maxPriorityFeePerGas (snd s) =
      mul_div (priorityFeeOf fd) EVMApproveExecutor.DEFAULT_GAS_MULTIPLIER 100.

(** Attempts are listed in the order of their indices. *)
Definition earlier {A} (a b : View * A) : Prop :=
  (index (fst a) < index (fst b))%nat.

(** ** Scenarios on the scripted world *)

Definition mainnet : Network := mkNetwork "homestead" 1.

(** The first attempt is dropped, the second is confirmed; between the two
    the network suggestion falls from (100, 10) to (50, 5). *)
Definition feeDropWorld : Script :=
  mkScript
    [Ok 7%nat; Ok 7%nat]
    [Ok (mkFeeData (Some 100) (Some 10)); Ok (mkFeeData (Some 50) (Some 5))]
    [Ok (mkResponse "0xaaa"); Ok (mkResponse "0xbbb")]
    [Ok None; Ok (Some (mkReceipt "0xbbb" 42))]
    [Ok None]
    [Ok mainnet]
    [] [] [] [].

Definition networkDown : Error :=
  mkError (Some "NETWORK_ERROR") "could not detect network".

(** No receipt, the transaction unknown to the pending pool, and the
    network lookup of the log line rejects. *)
Definition droppedNetworkDownWorld : Script :=
  mkScript [] [] []
    [Ok None]
    [Ok None]
    [Thrown networkDown]
    [] [] [] [].

(** Two polls find the transaction pending, the third finds a receipt. *)
Definition confirmedThirdPollWorld : Script :=
  mkScript [] [] []
    [Ok None; Ok None; Ok (Some (mkReceipt "0xaaa" 42))]
    [Ok (Some (mkResponse "0xaaa")); Ok (Some (mkResponse "0xaaa"))]
    []
    [] [] [] [].

Definition oracleDown : Error :=
  mkError (Some "SERVER_ERROR") "fee history unavailable".

(** Everything answers but the fee query, which rejects every time. *)
Definition feeOracleDownWorld : Script :=
  mkScript
    [Ok 7%nat; Ok 7%nat; Ok 7%nat]
    [Thrown oracleDown; Thrown oracleDown; Thrown oracleDown]
    [Ok (mkResponse "0xaaa")]
    [Ok (Some (mkReceipt "0xaaa" 42))]
    [] []
    [Ok 0]
    [Ok (mkResponse "0xccc")]
    [Ok (mkReceipt "0xccc" 43)]
    [].

(** The fee query answers with no suggestion at all. *)
Definition noSuggestionWorld : Script :=
  mkScript
    [Ok 7%nat]
    [Ok (mkFeeData None None)]
    [Ok (mkResponse "0xaaa")]
    [Ok (Some (mkReceipt "0xaaa" 42))]
    [] []
    [Ok 0]
    [Ok (mkResponse "0xccc")]
    [Ok (mkReceipt "0xccc" 43)]
    [].

Definition supportedChain : APIResponse :=
  mkAPIResponse (Some [mkChainData (Some "0xDex")]).

(** The allowance on chain (1000) already covers the amount asked (500). *)
Definition alreadyApprovedWorld : Script :=
  mkScript [] [] [] [] [] []
    [Ok 1000]
    [Ok (mkResponse "0xccc")]
    [Ok (mkReceipt "0xccc" 43)]
    [Ok supportedChain].

Definition insufficientFunds : Error :=
  mkError (Some "INSUFFICIENT_FUNDS") "insufficient funds for gas * price + value".

(** Every submission is rejected for insufficient funds. *)
Definition insufficientFundsWorld : Script :=
  mkScript
    [Ok 7%nat; Ok 7%nat; Ok 7%nat]
    [Ok (mkFeeData (Some 100) (Some 10)); Ok (mkFeeData (Some 100) (Some 10));
     Ok (mkFeeData (Some 100) (Some 10))]
    [Thrown insufficientFunds; Thrown insufficientFunds;
     Thrown insufficientFunds]
    [] [] []
    [Ok 0]
    [Thrown insufficientFunds; Thrown insufficientFunds;
     Thrown insufficientFunds]
    []
    [Ok supportedChain].

Definition rejected (n : string) : Error :=
  mkError (Some "SERVER_ERROR") ("bad response, try " ++ n)%string.

(** Every submission is rejected by the node, each time with another
    message. *)
Definition allRejectedWorld : Script :=
  mkScript
    [Ok 7%nat; Ok 7%nat; Ok 7%nat]
    [Ok (mkFeeData (Some 100) (Some 10)); Ok (mkFeeData (Some 100) (Some 10));
     Ok (mkFeeData (Some 100) (Some 10))]
    [Thrown (rejected "1"); Thrown (rejected "2"); Thrown (rejected "3")]
    [] [] []
    [Ok 0]
    [Thrown (rejected "1"); Thrown (rejected "2"); Thrown (rejected "3")]
    []
    [Ok supportedChain].

Definition sampleRoute : RouterResult :=
  mkRouterResult (mkToken "18" "WETH") (mkToken "6" "USDC")
                 "1000000000000000000" "2500000000" "0.05".

Definition sampleSwap : SwapResponseData :=
  mkSwapResponseData (Some [mkQuoteData (Some sampleRoute) (Some sampleTx)]).

(** ** More readings of a trace *)

(** The requests handed to [wallet.sendTransaction], in order. *)
Fixpoint requests (t : list Event) : list Transaction :=
  match t with
  | [] => []
  | EvSendTransaction x _ :: t' => x :: requests t'
  | _ :: t' => requests t'
  end.

(** The arguments of the [tokenContract.approve] calls, in order. *)
Fixpoint approveCalls (t : list Event)
  : list (string * string * Z * Overrides) :=
  match t with
  | [] => []
  | EvApprove token spender amount o _ :: t' =>
      (token, spender, amount, o) :: approveCalls t'
  | _ :: t' => approveCalls t'
  end.

(** The attempt numbers printed by the failure lines of the two loops. *)
Fixpoint failureLines (t : list Event) : list nat :=
  match t with
  | [] => []
  | EvConsole (ErrAttemptFailed n _) :: t' => n :: failureLines t'
  | EvConsole (WarnApprovalAttemptFailed n _) :: t' => n :: failureLines t'
  | _ :: t' => failureLines t'
  end.

(** The delays announced by "Retrying in ...ms". *)
Fixpoint retryDelays (t : list Event) : list Z :=
  match t with
  | [] => []
  | EvConsole (LogRetrying d) :: t' => d :: retryDelays t'
  | _ :: t' => retryDelays t'
  end.

(** Every announced delay is the very next thing that happens. *)
Fixpoint pausesFollow (t : list Event) : bool :=
  match t with
  | [] => true
  | EvConsole (LogRetrying d) :: t' =>
      match t' with
      | EvSetTimeout d' :: _ => (d =? d') && pausesFollow t'
      | _ => false
      end
  | _ :: t' => pausesFollow t'
  end.

(** The linear back-off: 2000 ms times the number of failed attempts. *)
Definition backoff (n : nat) : list Z :=
  map (fun i => 2000 * Z.of_nat i) (seq 1 n).

(** Receipt and pending-pool queries ask for the hash that the last
    submission returned, and for nothing when no submission is in flight.
    [inFlight] is that hash; a rejected submission and a failure line
    clear it. *)
Definition followStep (inFlight : option string) (e : Event)
  : option (option string) :=
  match e with
  | EvSendTransaction _ (Ok r) => Some (Some (hash r))
  | EvSendTransaction _ (Thrown _) => Some None
  | EvConsole (ErrAttemptFailed _ _) => Some None
  | EvGetTransactionReceipt h _ | EvGetTransaction h _ =>
      match inFlight with
      | Some h' => if String.eqb h h' then Some inFlight else None
      | None => None
      end
  | _ => Some inFlight
  end.

Fixpoint pollsFollow (inFlight : option string) (t : list Event)
  : option (option string) :=
  match t with
  | [] => Some inFlight
  | e :: t' =>
      match followStep inFlight e with
      | Some s => pollsFollow s t'
      | None => None
      end
  end.

(** In the approval loop [tx.wait()] is called on the response of the
    [approve] call just before it (only the "sent" line in between). *)
Fixpoint waitsFollow (t : list Event) : bool :=
  match t with
  | [] => true
  | EvApprove _ _ _ _ (Ok r)
    :: EvConsole (LogApprovalSent h) :: EvWait h' _ :: t' =>
      String.eqb h (hash r) && String.eqb h' (hash r) && waitsFollow t'
  | EvApprove _ _ _ _ (Ok _) :: _ => false
  | EvWait _ _ :: _ => false
  | _ :: t' => waitsFollow t'
  end.

(** ** The shape of traces

    The traces that the attempts and the loops can leave, with the outcome
    each one ends in, whatever the world answers. *)
Section TraceShapes.
Context {W : Type} `{Environment W}.

(** [tx.value ? BigNumber.from(tx.value) : BigNumber.from(0)] *)
Definition valueOf (tx : TxData) : result Z :=
  match truthy (tx_value tx) with
  | Some v => BigNumber_from v
  | None => Ok 0
  end.

(** [BigNumber.from(tx.gas || 0)] *)
Definition gasOf (tx : TxData) : result Z :=
  match truthy (tx_gas tx) with
  | Some g => BigNumber_from g
  | None => Ok 0
  end.

(** The request of lines 71-87, from what the attempt has read. *)
Definition requestOf (tx : TxData) (retryCount count : nat) (fd : FeeData)
           (v g : Z) : Transaction :=
  {| data := tx_data tx;
     to := tx_to tx;
     value := v;
     nonce := (count + retryCount)%nat;
     gasLimit := mul_div g EVMSwapExecutor.gasMultiplier 100;
     maxFeePerGas := mul_div (baseFeeOf fd) EVMSwapExecutor.gasMultiplier 100;
     maxPriorityFeePerGas :=
       mul_div (priorityFeeOf fd) EVMSwapExecutor.gasMultiplier 100 |}.

Inductive PollTrace (h : string)
  : nat -> nat -> result Receipt -> list Event -> Prop :=
| poll_timed_out a :
    PollTrace h 0 a (Thrown TimedOut) []
| poll_receipt_rejected f a e :
    PollTrace h (S f) a (Thrown e) [EvGetTransactionReceipt h (Thrown e)]
| poll_confirmed f a r :
    PollTrace h (S f) a (Ok r)
      [EvGetTransactionReceipt h (Ok (Some r));
       EvConsole (LogConfirmed (blockNumber r))]
| poll_pending_rejected f a e :
    PollTrace h (S f) a (Thrown e)
      [EvGetTransactionReceipt h (Ok None); EvGetTransaction h (Thrown e)]
| poll_network_rejected f a e :
    PollTrace h (S f) a (Thrown e)
      [EvGetTransactionReceipt h (Ok None); EvGetTransaction h (Ok None);
       EvGetNetwork (Thrown e)]
| poll_dropped f a n :
    PollTrace h (S f) a (Thrown Dropped)
      [EvGetTransactionReceipt h (Ok None); EvGetTransaction h (Ok None);
       EvGetNetwork (Ok n); EvConsole (ErrDropped (name n) (chainId n))]
| poll_again f a p res t :
    PollTrace h f (S a) res t ->
    PollTrace h (S f) a res
      (EvGetTransactionReceipt h (Ok None)
       :: EvGetTransaction h (Ok (Some p))
       :: EvConsole (LogStillPending (a + 1) EVMSwapExecutor.maxAttempts)
       :: EvSetTimeout 2000 :: t).

Inductive AttemptTrace (tx : TxData) (k : nat)
  : result Receipt -> list Event -> Prop :=
| attempt_count_rejected e :
    AttemptTrace tx k (Thrown e)
      [EvConsole LogPreparing; EvGetTransactionCount "latest" (Thrown e)]
| attempt_fees_rejected c e :
    AttemptTrace tx k (Thrown e)
      [EvConsole LogPreparing; EvGetTransactionCount "latest" (Ok c);
       EvGetFeeData (Thrown e)]
| attempt_value_rejected c fd e :
    valueOf tx = Thrown e ->
    AttemptTrace tx k (Thrown e)
      [EvConsole LogPreparing; EvGetTransactionCount "latest" (Ok c);
       EvGetFeeData (Ok fd); EvConsole (LogFeeData fd)]
| attempt_gas_rejected c fd v e :
    valueOf tx = Ok v ->
    gasOf tx = Thrown e ->
    AttemptTrace tx k (Thrown e)
      [EvConsole LogPreparing; EvGetTransactionCount "latest" (Ok c);
       EvGetFeeData (Ok fd); EvConsole (LogFeeData fd)]
| attempt_send_rejected c fd v g e :
    valueOf tx = Ok v ->
    gasOf tx = Ok g ->
    AttemptTrace tx k (Thrown e)
      [EvConsole LogPreparing; EvGetTransactionCount "latest" (Ok c);
       EvGetFeeData (Ok fd); EvConsole (LogFeeData fd);
       EvConsole (LogTransactionDetails (requestOf tx k c fd v g));
       EvConsole LogSending;
       EvSendTransaction (requestOf tx k c fd v g) (Thrown e)]
| attempt_sent c fd v g resp res t :
    valueOf tx = Ok v ->
    gasOf tx = Ok g ->
    PollTrace (hash resp) EVMSwapExecutor.maxAttempts 0 res t ->
    AttemptTrace tx k res
      ([EvConsole LogPreparing; EvGetTransactionCount "latest" (Ok c);
        EvGetFeeData (Ok fd); EvConsole (LogFeeData fd);
        EvConsole (LogTransactionDetails (requestOf tx k c fd v g));
        EvConsole LogSending;
        EvSendTransaction (requestOf tx k c fd v g) (Ok resp);
        EvConsole (LogSent (hash resp)); EvSetTimeout 5000;
        EvConsole LogWaiting] ++ t).

(** [LoopTrace tx m fuel k]: the swap loop entered with [retryCount = k],
    [fuel] iterations left and bound [m]. *)
Inductive LoopTrace (tx : TxData) (m : nat)
  : nat -> nat -> result Receipt -> list Event -> Prop :=
| loop_exit k :
    LoopTrace tx m 0 k (Thrown MaxRetriesExceeded) []
| loop_confirmed f k r t :
    AttemptTrace tx k (Ok r) t ->
    LoopTrace tx m (S f) k (Ok r) t
| loop_insufficient_funds f k e t :
    AttemptTrace tx k (Thrown e) t ->
    code_is e "INSUFFICIENT_FUNDS" = true ->
    LoopTrace tx m (S f) k
      (Thrown (newError "Insufficient funds for transaction"))
      (t ++ [EvConsole (ErrAttemptFailed (S k) (message e))])
| loop_nonce_expired f k e t :
    AttemptTrace tx k (Thrown e) t ->
    code_is e "INSUFFICIENT_FUNDS" = false ->
    code_is e "NONCE_EXPIRED" = true ->
    LoopTrace tx m (S f) k
      (Thrown (newError "Transaction nonce expired"))
      (t ++ [EvConsole (ErrAttemptFailed (S k) (message e))])
| loop_exhausted f k e t :
    AttemptTrace tx k (Thrown e) t ->
    terminal e = false ->
    S k = m ->
    LoopTrace tx m (S f) k (Thrown e)
      (t ++ [EvConsole (ErrAttemptFailed (S k) (message e));
             EvConsole (ErrMaxRetries e)])
| loop_retry f k e t res t' :
    AttemptTrace tx k (Thrown e) t ->
    terminal e = false ->
    S k <> m ->
    LoopTrace tx m f (S k) res t' ->
    LoopTrace tx m (S f) k res
      (t ++ [EvConsole (ErrAttemptFailed (S k) (message e));
             EvConsole (LogRetrying (2000 * Z.of_nat (S k)));
             EvSetTimeout (2000 * Z.of_nat (S k))] ++ t').
End TraceShapes.

(** The overrides of lines 159-167, from the fee data read. *)
Definition overridesOf (fd : FeeData) : Overrides :=
  {| ov_gasLimit := 100000;
     ov_maxFeePerGas :=
       mul_div (baseFeeOf fd) EVMApproveExecutor.DEFAULT_GAS_MULTIPLIER 100;
     ov_maxPriorityFeePerGas :=
       mul_div (priorityFeeOf fd) EVMApproveExecutor.DEFAULT_GAS_MULTIPLIER
               100 |}.

Inductive ApprovalAttemptTrace (token spender : string) (amount : Z)
  : result Receipt -> list Event -> Prop :=
| approval_fees_rejected e :
    ApprovalAttemptTrace token spender amount (Thrown e)
      [EvConsole LogSendingApproval; EvGetFeeData (Thrown e)]
| approval_approve_rejected fd e :
    ApprovalAttemptTrace token spender amount (Thrown e)
      [EvConsole LogSendingApproval; EvGetFeeData (Ok fd);
       EvApprove token spender amount (overridesOf fd) (Thrown e)]
| approval_wait_rejected fd resp e :
    ApprovalAttemptTrace token spender amount (Thrown e)
      [EvConsole LogSendingApproval; EvGetFeeData (Ok fd);
       EvApprove token spender amount (overridesOf fd) (Ok resp);
       EvConsole (LogApprovalSent (hash resp));
       EvWait (hash resp) (Thrown e)]
| approval_confirmed fd resp r :
    ApprovalAttemptTrace token spender amount (Ok r)
      [EvConsole LogSendingApproval; EvGetFeeData (Ok fd);
       EvApprove token spender amount (overridesOf fd) (Ok resp);
       EvConsole (LogApprovalSent (hash resp));
       EvWait (hash resp) (Ok r);
       EvConsole (LogApprovalConfirmed (blockNumber r))].

Inductive ApprovalLoopTrace (token spender : string) (amount : Z) (m : nat)
  : nat -> nat -> result Receipt -> list Event -> Prop :=
| approval_loop_exit k :
    ApprovalLoopTrace token spender amount m 0 k
      (Thrown ApprovalMaxRetriesExceeded) []
| approval_loop_confirmed f k r t :
    ApprovalAttemptTrace token spender amount (Ok r) t ->
    ApprovalLoopTrace token spender amount m (S f) k (Ok r) t
| approval_loop_exhausted f k e t :
    ApprovalAttemptTrace token spender amount (Thrown e) t ->
    S k = m ->
    ApprovalLoopTrace token spender amount m (S f) k (Thrown e)
      (t ++ [EvConsole (WarnApprovalAttemptFailed (S k)
                          (2000 * Z.of_nat (S k)))])
| approval_loop_retry f k e t res t' :
    ApprovalAttemptTrace token spender amount (Thrown e) t ->
    S k <> m ->
    ApprovalLoopTrace token spender amount m f (S k) res t' ->
    ApprovalLoopTrace token spender amount m (S f) k res
      (t ++ [EvConsole (WarnApprovalAttemptFailed (S k)
                          (2000 * Z.of_nat (S k)));
             EvSetTimeout (2000 * Z.of_nat (S k))] ++ t').

(** What every request of one swap execution has in common: the payload,
    the destination, the value and the gas limit of the quote. *)
Definition sameIntent {W : Type} `{Environment W}
           (tx : TxData) (x : Transaction) : Prop :=
  data x = tx_data tx /\
  to x = tx_to tx /\
  valueOf tx = Ok (value x) /\
  exists g, gasOf tx = Ok g /\
            gasLimit x = mul_div g EVMSwapExecutor.gasMultiplier 100.

(** The delays of the failed attempts numbered [first], [first + 1], ... *)
Definition delaysFrom (first n : nat) : list Z :=
  map (fun i => 2000 * Z.of_nat i) (seq first n).

(** How many pauses go with [j] failure lines: as many when the flow got
    through, one less when it failed (the last failure is not retried). *)
Definition pausesFor {A} (res : result A) (j r : nat) : Prop :=
  match res with
  | Ok _ => r = j
  | Thrown _ => j = S r \/ (j = 0%nat /\ r = 0%nat)
  end.

(** An event other than a "Retrying in ...ms" line. *)
Definition announcesNoDelay (e : Event) : Prop :=
  match e with
  | EvConsole (LogRetrying _) => False
  | _ => True
  end.

(** A quote whose value is no number. *)
Definition malformedTx : TxData :=
  mkTxData "0xdata" "0xrouter" (Some "ten") (Some "200000").

(** What every [approve] call of one approval has in common: the token,
    the spender, the amount, and overrides built by [overridesOf] (so a gas
    limit of 100000). *)
Definition sameApproval (token spender : string) (amount : Z)
           (c : string * string * Z * Overrides) : Prop :=
  exists fd, c = (token, spender, amount, overridesOf fd).

(** [response.data?.[0]?.dexTokenApproveAddress], when truthy. *)
Definition dexAddressOf (response : APIResponse) : option string :=
  match api_data response with
  | Some (c :: _) => truthy (dexTokenApproveAddress c)
  | _ => None
  end.

(** The allowance is 0; the first [approve] is rejected by the node, the
    second goes through and is confirmed. *)
Definition approvalRetryWorld : Script :=
  mkScript [] 
    [Ok (mkFeeData (Some 100) (Some 10)); Ok (mkFeeData (Some 100) (Some 10))]
    [] [] [] []
    [Ok 0]
    [Thrown (rejected "1"); Ok (mkResponse "0xccc")]
    [Ok (mkReceipt "0xccc" 43)]
    [Ok supportedChain].

(** The chain endpoint answers, but lists no approve address. *)
Definition noDexAddressWorld : Script :=
  mkScript [] [] [] [] [] []
    [Ok 0]
    [Ok (mkResponse "0xccc")]
    [Ok (mkReceipt "0xccc" 43)]
    [Ok (mkAPIResponse (Some [mkChainData None]))].

(** The two errors by which [executeSwap] refuses its input. *)
Definition InvalidSwapData : Error :=
  newError "Invalid swap data: missing router result".

Definition MissingTransactionData : Error :=
  newError "Missing transaction data".

Definition WalletRequired : Error := newError "EVM wallet required".

Definition noWalletConfig : OKXConfig := mkConfig None.

(** An event other than the "Swap execution failed" line. *)
Definition notSwapFailed (e : Event) : Prop :=
  match e with
  | EvConsole (ErrSwapFailed _) => False
  | _ => True
  end.

(** The [approve] calls with their arguments, each with what its attempt
    had read. *)
Fixpoint approveCallsSeen (v : View) (t : list Event)
  : list (View * (string * string * Z * Overrides)) :=
  match t with
  | [] => []
  | e :: t' =>
      match e with
      | EvApprove token spender amount o _ =>
          (v, (token, spender, amount, o)) :: approveCallsSeen (observe v e) t'
      | _ => approveCallsSeen (observe v e) t'
      end
  end.

(** The first attempt is dropped, the second is confirmed; between the two
    the count that the provider answers falls from 10 to 8. *)
Definition countDropWorld : Script :=
  mkScript
    [Ok 10%nat; Ok 8%nat]
    [Ok (mkFeeData (Some 100) (Some 10)); Ok (mkFeeData (Some 100) (Some 10))]
    [Ok (mkResponse "0xaaa"); Ok (mkResponse "0xbbb")]
    [Ok None; Ok (Some (mkReceipt "0xbbb" 42))]
    [Ok None]
    [Ok mainnet]
    [] [] [] [].

(** An [approve] call made for the given token, spender and amount, with
    the overrides built from the fee data that its own attempt has read. *)
Definition approvedFromFeesRead (token spender : string) (amount : Z)
           (s : View * (string * string * Z * Overrides)) : Prop :=
  exists fd,
    feesSeen (fst s) = Some fd /\
    snd s = (token, spender, amount, overridesOf fd).

(** * Properties *)

#[local] Arguments Z.mul : simpl never.
#[local] Arguments Z.of_nat : simpl never.
#[local] Arguments Nat.eqb : simpl never.
#[local] Arguments Nat.sub : simpl never.

(** ** Traces: splitting lemmas *)

Lemma submitted_app (t1 t2 : list Event) :
  submitted (t1 ++ t2) = (submitted t1 + submitted t2)%nat.
Proof.
  unfold submitted. rewrite filter_app, length_app. reflexivity.
Qed.

Lemma phases_app (t1 t2 : list Event) (p : Phase) :
  phases p (t1 ++ t2) =
  match phases p t1 with
  | Some p' => phases p' t2
  | None => None
  end.
Proof.
  revert p. induction t1 as [|e t1 IH]; intros p; simpl.
  - reflexivity.
  - destruct (phaseStep p e); [apply IH | reflexivity].
Qed.

Lemma submissions_app (t1 t2 : list Event) (v : View) :
  submissions v (t1 ++ t2) =
  submissions v t1 ++ submissions (fold_left observe t1 v) t2.
Proof.
  revert v. induction t1 as [|e t1 IH]; intros v; simpl.
  - reflexivity.
  - destruct e; simpl; rewrite IH; reflexivity.
Qed.

Lemma approvals_app (t1 t2 : list Event) (v : View) :
  approvals v (t1 ++ t2) =
  approvals v t1 ++ approvals (fold_left observe t1 v) t2.
Proof.
  revert v. induction t1 as [|e t1 IH]; intros v; simpl.
  - reflexivity.
  - destruct e; simpl; rewrite IH; reflexivity.
Qed.

Lemma timers_app (t1 t2 : list Event) :
  timers (t1 ++ t2) = timers t1 ++ timers t2.
Proof.
  induction t1 as [|e t1 IH]; simpl; [reflexivity|].
  destruct e; simpl; rewrite ?IH; reflexivity.
Qed.

Lemma receiptPolls_app (t1 t2 : list Event) :
  receiptPolls (t1 ++ t2) = (receiptPolls t1 + receiptPolls t2)%nat.
Proof.
  unfold receiptPolls. rewrite filter_app, length_app. reflexivity.
Qed.

Lemma lastSent_app (t1 t2 : list Event) :
  lastSent (t1 ++ t2) =
  match lastSent t2 with
  | Some r => Some r
  | None => lastSent t1
  end.
Proof.
  induction t1 as [|e t1 IH]; simpl.
  - destruct (lastSent t2); reflexivity.
  - rewrite IH. destruct (lastSent t2); reflexivity.
Qed.

(** Symbolic execution of monadic code: unfold the combinators and split on
    the answers of the environment. *)
Ltac unmonad :=
  unfold bind, try_catch, call, console, sleep, lift, ret, throw in *.

(** ** The confirmation loop *)
Section PollFacts.
Context {W : Type} `{Environment W}.

Lemma poll_trace_cases (fuel a : nat) (h : string) (w : W) :
  let run := EVMSwapExecutor.pollReceipt fuel a h w in
  submitted (trace run) = 0%nat /\
  (forall v, submissions v (trace run) = [] /\
             fold_left observe (trace run) v = v) /\
  lastSent (trace run) = None /\
  match outcome run with
  | Ok _ => phases Submitted (trace run) = Some Idle
  | Thrown _ => phases Submitted (trace run) = Some Submitted
  end.
Proof.
  revert a w. induction fuel as [|fuel IH]; intros a w; simpl.
  - unmonad. simpl. repeat split; reflexivity.
  - unmonad.
    destruct (getTransactionReceipt h w) as [[[r|]|e] w1]; simpl;
      [repeat split; reflexivity | | repeat split; reflexivity].
    destruct (getTransaction h w1) as [[[p|]|e] w2]; simpl;
      [ | | repeat split; reflexivity].
    + specialize (IH (S a) (setTimeout 2000 w2)).
      destruct (EVMSwapExecutor.pollReceipt fuel (S a) h (setTimeout 2000 w2))
        as [[r w3] t3]. simpl in *.
      destruct IH as (I1 & I2 & I3 & I4).
      repeat split; rewrite ?I3; try assumption; try apply I2; reflexivity.
    + destruct (getNetwork w2) as [[n|e] w3]; simpl; repeat split; reflexivity.
Qed.
End PollFacts.

(** ** One swap attempt *)
Section SwapAttemptFacts.
Context {W : Type} `{Environment W}.

Lemma wait_trace_cases (h : string) (w : W) :
  let run := EVMSwapExecutor.waitForConfirmation h w in
  submitted (trace run) = 0%nat /\
  (forall v, submissions v (trace run) = [] /\
             fold_left observe (trace run) v = v) /\
  lastSent (trace run) = None /\
  match outcome run with
  | Ok _ => phases Submitted (trace run) = Some Idle
  | Thrown _ => phases Submitted (trace run) = Some Submitted
  end.
Proof.
  unfold EVMSwapExecutor.waitForConfirmation.
  generalize (EVMSwapExecutor.maxAttempts - 0)%nat; intros fuel.
  unmonad.
  pose proof (poll_trace_cases fuel 0 h (setTimeout 5000 w)) as P.
  destruct (EVMSwapExecutor.pollReceipt fuel 0 h (setTimeout 5000 w))
    as [[r w1] t1].
  simpl in *. destruct P as (P1 & P2 & P3 & P4).
  repeat split; rewrite ?P3; try assumption; try apply P2; reflexivity.
Qed.


Lemma swap_attempt_facts (tx : TxData) (k : nat) (w : W) :
  let run := EVMSwapExecutor.attempt tx k w in
  (submitted (trace run) <= 1)%nat /\
  (forall v,
      index (fold_left observe (trace run) v) = index v /\
      Forall (fun s => index (fst s) = index v /\ built_from k s)
             (submissions v (trace run))) /\
  match outcome run with
  | Ok _ =>
      phases Idle (trace run) = Some Idle /\
      exists resp, lastSent (trace run) = Some (Ok resp)
  | Thrown _ =>
      phases Idle (trace run) = Some Started \/
      phases Idle (trace run) = Some Submitted
  end.
Proof.
  unfold EVMSwapExecutor.attempt. unmonad.
  destruct (getTransactionCount "latest" w) as [[c|e] w1]; simpl;
    [ | repeat split; auto ].
  destruct (getFeeData w1) as [[fd|e] w2]; simpl;
    [ | repeat split; auto ].
  destruct (match truthy (tx_value tx) with
            | Some v => BigNumber_from v
            | None => Ok 0
            end) as [val|e]; simpl; [ | repeat split; auto ].
  destruct (match truthy (tx_gas tx) with
            | Some g => BigNumber_from g
            | None => Ok 0
            end) as [gas|e]; simpl; [ | repeat split; auto ].
  match goal with
  | |- context [sendTransaction ?t w2] =>
      destruct (sendTransaction t w2) as [[resp|e] w3]; simpl
  end.
  - pose proof (wait_trace_cases (hash resp) w3) as P.
    destruct (EVMSwapExecutor.waitForConfirmation (hash resp) w3)
      as [[r w4] t4].
    simpl in *. destruct P as (P1 & P2 & P3 & P4).
    split; [unfold submitted in *; simpl; rewrite P1; lia|].
    split.
    + intros v. destruct (P2 (mkView (index v) (Some c) (Some fd))) as [Q1 Q2].
      rewrite Q1, Q2. simpl. split; [reflexivity|].
      constructor; [|constructor]. simpl. split; [reflexivity|].
      exists c, fd. simpl. repeat split; reflexivity.
    + rewrite P3. destruct r; [split; [assumption|eauto] | right; assumption].
  - split; [unfold submitted; simpl; lia|]. split; [|right; reflexivity].
    intros v. simpl. split; [reflexivity|].
    constructor; [|constructor]. simpl. split; [reflexivity|].
    exists c, fd. simpl. repeat split; reflexivity.
Qed.
End SwapAttemptFacts.

Lemma submissions_length (t : list Event) (v : View) :
  (List.length (submissions v t) <= submitted t)%nat.
Proof.
  revert v. unfold submitted.
  induction t as [|e t IH]; intros v; simpl; [lia|].
  destruct e; simpl; try apply IH; try (apply le_n_S, IH).
  apply le_S, IH.
Qed.

Lemma approvals_length (t : list Event) (v : View) :
  (List.length (approvals v t) <= submitted t)%nat.
Proof.
  revert v. unfold submitted.
  induction t as [|e t IH]; intros v; simpl; [lia|].
  destruct e; simpl; try apply IH; try (apply le_n_S, IH).
  apply le_S, IH.
Qed.


Lemma sorted_prepend {A} (k : nat) (l1 l2 : list (View * A)) :
  (List.length l1 <= 1)%nat ->
  Forall (fun s => index (fst s) = k) l1 ->
  Forall (fun s => (S k <= index (fst s))%nat) l2 ->
  StronglySorted earlier l2 ->
  StronglySorted earlier (l1 ++ l2).
Proof.
  intros L F1 F2 S2.
  destruct l1 as [|s [|s' l1]]; simpl in *; try lia; [assumption|].
  constructor; [assumption|].
  inversion F1 as [|? ? Hs _]; subst.
  eapply Forall_impl; [|exact F2].
  intros b Hb. unfold earlier. simpl in *. lia.
Qed.

(** ** The swap retry loop *)
Section SwapLoopFacts.
Context {W : Type} `{Environment W}.

Lemma swap_loop_facts (tx : TxData) (m fuel : nat) :
  forall (k : nat) (w : W),
  let run := EVMSwapExecutor.retryLoop tx m fuel k w in
  (submitted (trace run) <= fuel)%nat /\
  phases Idle (trace run) = Some Idle /\
  (forall v, index v = k ->
     Forall (fun s => (k <= index (fst s))%nat /\
                      built_from (index (fst s)) s)
            (submissions v (trace run)) /\
     StronglySorted earlier (submissions v (trace run))) /\
  (forall r, outcome run = Ok r ->
             exists resp, lastSent (trace run) = Some (Ok resp)).
Proof.
  induction fuel as [|fuel IH]; intros k w; simpl.
  - unmonad. simpl. repeat split; auto; try constructor. discriminate.
  - unmonad.
    pose proof (swap_attempt_facts tx k w) as A.
    destruct (EVMSwapExecutor.attempt tx k w) as [[[r|e] w1] t1];
      simpl in A; destruct A as (A1 & A2 & A3); simpl.
    + destruct A3 as [A3 A4].
      split; [lia|]. split; [assumption|]. split.
      * intros v Hv. destruct (A2 v) as [_ F].
        split.
        -- eapply Forall_impl; [|exact F].
           intros s [Hs B]. rewrite Hs, Hv. split; [lia|assumption].
        -- rewrite <- (app_nil_r (submissions v t1)).
           apply sorted_prepend with (k := k).
           ++ pose proof (submissions_length t1 v). lia.
           ++ eapply Forall_impl; [|exact F]. intros s [Hs _]. congruence.
           ++ constructor.
           ++ constructor.
      * intros r' _. exact A4.
    + (* the attempt failed: the handler *)
      assert (PH : phases Idle (t1 ++ [EvConsole (ErrAttemptFailed (S k) (message e))])
                   = Some Idle).
      { rewrite phases_app. destruct A3 as [-> | ->]; reflexivity. }
      assert (SUB : forall v, index v = k ->
                Forall (fun s => (k <= index (fst s))%nat /\
                                 built_from (index (fst s)) s)
                       (submissions v t1) /\
                Forall (fun s => index (fst s) = k) (submissions v t1) /\
                (List.length (submissions v t1) <= 1)%nat).
      { intros v Hv. destruct (A2 v) as [_ F]. repeat split.
        - eapply Forall_impl; [|exact F].
          intros s [Hs B]. rewrite Hs, Hv. split; [lia|assumption].
        - eapply Forall_impl; [|exact F]. intros s [Hs _]. congruence.
        - pose proof (submissions_length t1 v). lia. }
      destruct (code_is e "INSUFFICIENT_FUNDS"); simpl;
        [ | destruct (code_is e "NONCE_EXPIRED"); simpl;
            [ | destruct (S k =? m)%nat; simpl ] ].
      1-3: split; [rewrite submitted_app; unfold submitted at 2; simpl; lia|];
           split; [try exact PH;
                   rewrite phases_app in *;
                   destruct A3 as [E|E]; rewrite E in *; reflexivity|];
           split; [|discriminate];
           intros v Hv; destruct (SUB v Hv) as (S1 & S2 & S3);
           rewrite submissions_app; simpl; rewrite app_nil_r;
           split; [assumption|];
           rewrite <- (app_nil_r (submissions v t1));
           apply sorted_prepend with (k := k); auto; constructor.
      specialize (IH (S k) (setTimeout (2000 * Z.of_nat (S k)) w1)).
      destruct (EVMSwapExecutor.retryLoop tx m fuel (S k)
                  (setTimeout (2000 * Z.of_nat (S k)) w1))
        as [[r2 w2] t2].
      simpl in IH. destruct IH as (I1 & I2 & I3 & I4). simpl.
      split; [rewrite submitted_app; unfold submitted at 2; simpl;
              fold (submitted t2); lia|].
      split.
      { rewrite phases_app.
        destruct A3 as [E|E]; rewrite E; simpl; exact I2. }
      split.
      * intros v Hv. destruct (SUB v Hv) as (S1 & S2 & S3).
        rewrite submissions_app. simpl.
        destruct (I3 (mkView (S k) None None) eq_refl) as [J1 J2].
        split.
        -- apply Forall_app. split; [assumption|].
           eapply Forall_impl; [|exact J1].
           intros s [L B]. split; [lia|assumption].
        -- apply sorted_prepend with (k := k); auto.
           eapply Forall_impl; [|exact J1]. intros s [L _]. exact L.
      * intros r Hr. destruct (I4 r Hr) as [resp L].
        exists resp. rewrite lastSent_app. simpl. rewrite L. reflexivity.
Qed.
End SwapLoopFacts.

(** ** The approval attempt and its retry loop *)
Section ApprovalFacts.
Context {W : Type} `{Environment W}.


Lemma approval_attempt_facts (token spender : string) (amount : Z) (w : W) :
  let run := EVMApproveExecutor.attempt token spender amount w in
  (submitted (trace run) <= 1)%nat /\
  (forall v, Forall approval_built_from (approvals v (trace run))) /\
  match outcome run with
  | Ok _ => phases Idle (trace run) = Some Idle
  | Thrown _ =>
      phases Idle (trace run) = Some Started \/
      phases Idle (trace run) = Some Submitted
  end.
Proof.
  unfold EVMApproveExecutor.attempt. unmonad.
  destruct (getFeeData w) as [[fd|e] w1]; simpl;
    [ | repeat split; auto ].
  match goal with
  | |- context [approve token spender amount ?o w1] =>
      destruct (approve token spender amount o w1) as [[resp|e] w2]; simpl
  end.
  - destruct (wait (hash resp) w2) as [[r|e] w3]; simpl;
      (split; [unfold submitted; simpl; lia|]);
      (split; [|auto]);
      intros v; (constructor; [|constructor]);
      exists fd; simpl; repeat split; reflexivity.
  - split; [unfold submitted; simpl; lia|]. split; [|auto].
    intros v. constructor; [|constructor].
    exists fd. simpl. repeat split; reflexivity.
Qed.

Lemma approval_loop_facts (token spender : string) (amount : Z)
      (m fuel : nat) :
  forall (k : nat) (w : W),
  let run :=
    EVMApproveExecutor.retryLoop token spender amount m fuel k w in
  (submitted (trace run) <= fuel)%nat /\
  phases Idle (trace run) = Some Idle /\
  (forall v, Forall approval_built_from (approvals v (trace run))).
Proof.
  induction fuel as [|fuel IH]; intros k w; simpl.
  - unmonad. simpl. repeat split; auto.
  - unmonad.
    pose proof (approval_attempt_facts token spender amount w) as A.
    destruct (EVMApproveExecutor.attempt token spender amount w)
      as [[[r|e] w1] t1];
      simpl in A; destruct A as (A1 & A2 & A3); simpl.
    + split; [lia|]. split; [assumption|]. exact A2.
    + destruct (S k =? m)%nat; simpl.
      * split; [rewrite submitted_app; unfold submitted at 2; simpl; lia|].
        split; [rewrite phases_app; destruct A3 as [-> | ->]; reflexivity|].
        intros v. rewrite approvals_app. simpl. rewrite app_nil_r. apply A2.
      * specialize (IH (S k) (setTimeout (2000 * Z.of_nat (S k)) w1)).
        destruct (EVMApproveExecutor.retryLoop token spender amount m fuel
                    (S k) (setTimeout (2000 * Z.of_nat (S k)) w1))
          as [[r2 w2] t2].
        simpl in IH. destruct IH as (I1 & I2 & I3). simpl.
        split; [rewrite submitted_app; unfold submitted at 2; simpl;
                fold (submitted t2); lia|].
        split.
        { rewrite phases_app. destruct A3 as [-> | ->]; simpl; exact I2. }
        intros v. rewrite approvals_app. simpl.
        apply Forall_app. split; [apply A2 | apply I3].
Qed.
End ApprovalFacts.

(** ** Bounded, sequential attempts *)

(** A configured [maxRetries] of 0 is falsy, so the loops run with the
    default bound. *)
Remark configured_zero_gives_default (url : string) :
  maxRetries_or_3 (mkChainConfig url (Some 0%nat)) = 3%nat.
Proof.
  reflexivity.
Qed.

(** The life-cycle monitor refuses a second attempt opened, or a second
    submission made, while an attempt is still open. *)
Example phases_refuses_overlap (t : Transaction) (r : TransactionResponse) :
  phases Idle [EvConsole LogPreparing; EvSendTransaction t (Ok r);
               EvConsole LogPreparing] = None /\
  phases Idle [EvConsole LogPreparing; EvSendTransaction t (Ok r);
               EvSendTransaction t (Ok r)] = None /\
  phases Idle [EvConsole LogPreparing; EvSendTransaction t (Ok r);
               EvConsole (ErrAttemptFailed 1 "dropped");
               EvConsole LogPreparing; EvSendTransaction t (Ok r);
               EvConsole (LogConfirmed 42)] = Some Idle.
Proof.
  repeat split.
Qed.

(** C2.  In the swap loop and in the approval loop the number of
    submissions never exceeds [maxRetries] (the value of the network
    configuration, 3 when it is absent), and attempts never overlap: in the
    trace every attempt is opened only while no other is open, submits at
    most once, and the run ends with no attempt open. *)
Theorem attempts_bounded_and_sequential
        {W : Type} `{Environment W}
        (config : OKXConfig) (networkConfig : ChainConfig)
        (tx : TxData) (token spender : string) (amount : Z) (w : W) :
  let swap :=
    EVMSwapExecutor.executeEvmTransaction config networkConfig tx w in
  let approval :=
    EVMApproveExecutor.executeApprovalTransaction
      config networkConfig token spender amount w in
  (submitted (trace swap) <= maxRetries_or_3 networkConfig)%nat /\
  (submitted (trace approval) <= maxRetries_or_3 networkConfig)%nat /\
  phases Idle (trace swap) = Some Idle /\
  phases Idle (trace approval) = Some Idle /\
  (maxRetries networkConfig = None -> maxRetries_or_3 networkConfig = 3%nat) /\
  (forall n, maxRetries networkConfig = Some (S n) ->
             maxRetries_or_3 networkConfig = S n).
Proof.
  assert (D1 : maxRetries networkConfig = None ->
               maxRetries_or_3 networkConfig = 3%nat)
    by (unfold maxRetries_or_3; intros ->; reflexivity).
  assert (D2 : forall n, maxRetries networkConfig = Some (S n) ->
                         maxRetries_or_3 networkConfig = S n)
    by (unfold maxRetries_or_3; intros n ->; reflexivity).
  unfold EVMSwapExecutor.executeEvmTransaction,
    EVMApproveExecutor.executeApprovalTransaction.
  destruct (evm_wallet config) as [wallet|].
  - pose proof (swap_loop_facts tx (maxRetries_or_3 networkConfig)
                  (maxRetries_or_3 networkConfig - 0) 0 w) as S.
    pose proof (approval_loop_facts token spender amount
                  (maxRetries_or_3 networkConfig)
                  (maxRetries_or_3 networkConfig - 0) 0 w) as A.
    cbv zeta in *.
    destruct S as (S1 & S2 & _). destruct A as (A1 & A2 & _).
    repeat split; try assumption; lia.
  - unmonad. unfold submitted. simpl.
    repeat split; try assumption; lia.
Qed.

(** ** Fees *)

Lemma mul_div_monotone (a b m : Z) :
  0 <= m -> a <= b -> mul_div a m 100 <= mul_div b m 100.
Proof.
  intros Hm Hab. unfold mul_div.
  apply Z.quot_le_mono; [lia|]. apply Z.mul_le_mono_nonneg_r; assumption.
Qed.

(** C1, as the code has it.  Every submitted request carries the fees
    suggested by the network in that very attempt (0 and 3 gwei standing in
    for an absent suggestion) scaled by a constant: 110/100 in the swap
    loop, 150/100 in the approval loop, with truncating division, whatever
    the attempt index.  Scaling is monotone, so an attempt bids at least as
    much as another one exactly as far as the suggestion it read allows. *)
Theorem fees_scaled_by_constant_multiplier
        {W : Type} `{Environment W}
        (config : OKXConfig) (networkConfig : ChainConfig)
        (tx : TxData) (token spender : string) (amount : Z) (w : W) :
  let swap :=
    EVMSwapExecutor.executeEvmTransaction config networkConfig tx w in
  let approval :=
    EVMApproveExecutor.executeApprovalTransaction
      config networkConfig token spender amount w in
  Forall (fun s =>
            exists fd,
              feesSeen (fst s) = Some fd /\
              maxFeePerGas (snd s) = mul_div (baseFeeOf fd) 110 100 /\
              maxPriorityFeePerGas (snd s) =
                mul_div (priorityFeeOf fd) 110 100)
         (submissions firstView (trace swap)) /\
  Forall (fun s =>
            exists fd,
              feesSeen (fst s) = Some fd /\
              ov_maxFeePerGas (snd s) = mul_div (baseFeeOf fd) 150 100 /\
              ov_maxPriorityFeePerGas (snd s) =
                mul_div (priorityFeeOf fd) 150 100)
         (approvals firstView (trace approval)) /\
  (forall a b : Z,
      a <= b ->
      mul_div a 110 100 <= mul_div b 110 100 /\
      mul_div a 150 100 <= mul_div b 150 100).
Proof.
  cbv zeta.
  split; [|split].
  - unfold EVMSwapExecutor.executeEvmTransaction.
    destruct (evm_wallet config); [|constructor].
    destruct (swap_loop_facts tx (maxRetries_or_3 networkConfig)
                (maxRetries_or_3 networkConfig - 0) 0 w)
      as (_ & _ & S & _).
    destruct (S firstView eq_refl) as [F _].
    eapply Forall_impl; [|exact F].
    intros s [_ (c & fd & _ & Hf & _ & Hb & Hp)].
    exists fd. auto.
  - unfold EVMApproveExecutor.executeApprovalTransaction.
    destruct (evm_wallet config); [|constructor].
    destruct (approval_loop_facts token spender amount
                (maxRetries_or_3 networkConfig)
                (maxRetries_or_3 networkConfig - 0) 0 w)
      as (_ & _ & A).
    eapply Forall_impl; [|exact (A firstView)].
    intros s (fd & Hf & Hb & Hp). exists fd. auto.
  - intros a b Hab. split; apply mul_div_monotone; lia.
Qed.

(** C1 as stated fails.  On [feeDropWorld] the swap loop submits twice,
    attempts 0 and 1; the second request bids less than the first, on the
    base fee and on the priority fee; and the first request already bids
    110/100 of the suggestion, which no escalation step makes of
    [(100 + 0 * stepPercent) / 100]. *)
Lemma fees_fall_with_the_suggestion :
  let run :=
    EVMSwapExecutor.executeEvmTransaction
      walletConfig defaultChain sampleTx feeDropWorld in
  exists s0 s1,
    submissions firstView (trace run) = [s0; s1] /\
    index (fst s0) = 0%nat /\
    index (fst s1) = 1%nat /\
    maxFeePerGas (snd s1) < maxFeePerGas (snd s0) /\
    maxPriorityFeePerGas (snd s1) < maxPriorityFeePerGas (snd s0) /\
    feesSeen (fst s0) = Some (mkFeeData (Some 100) (Some 10)) /\
    (forall stepPercent,
        maxFeePerGas (snd s0) <>
        mul_div 100 (100 + Z.of_nat (index (fst s0)) * stepPercent) 100).
Proof.
  vm_compute.
  eexists. eexists.
  split; [reflexivity|].
  repeat split; try reflexivity.
  intros stepPercent. discriminate.
Qed.

(** ** Nonces *)

Lemma sorted_later {A} (R : A -> A -> Prop) (l1 l2 : list A) (a : A) :
  StronglySorted R (l1 ++ a :: l2) -> Forall (R a) l2.
Proof.
  induction l1 as [|x l1 IH]; simpl; intros S.
  - apply StronglySorted_inv in S. apply S.
  - apply StronglySorted_inv in S. apply IH, S.
Qed.

(** C7, as the code has it.  Every request the swap loop submits carries
    as nonce the count that the provider answered in that very attempt
    plus the attempt index.  The count is read afresh in every attempt and
    attempts are submitted in the order of their indices, so the nonces of
    two attempts differ by the difference of their indices plus the
    difference of the counts read: the later attempt uses the greater
    nonce whenever the count read by it is not below the count read by the
    earlier one. *)
Theorem nonce_is_count_plus_attempt_index
        {W : Type} `{Environment W}
        (config : OKXConfig) (networkConfig : ChainConfig)
        (tx : TxData) (w : W) :
  let subs :=
    submissions firstView
      (trace (EVMSwapExecutor.executeEvmTransaction config networkConfig tx w))
  in
  Forall (fun s =>
            exists count,
              countSeen (fst s) = Some count /\
              nonce (snd s) = (count + index (fst s))%nat)
         subs /\
  (forall l1 a l2 b l3 ca cb,
      subs = l1 ++ a :: l2 ++ b :: l3 ->
      countSeen (fst a) = Some ca ->
      countSeen (fst b) = Some cb ->
      (index (fst a) < index (fst b))%nat /\
      (nonce (snd b) + ca + index (fst a)
       = nonce (snd a) + cb + index (fst b))%nat /\
      ((ca <= cb)%nat -> (nonce (snd a) < nonce (snd b))%nat)).
Proof.
  cbv zeta.
  unfold EVMSwapExecutor.executeEvmTransaction.
  destruct (evm_wallet config).
  - destruct (swap_loop_facts tx (maxRetries_or_3 networkConfig)
                (maxRetries_or_3 networkConfig - 0) 0 w)
      as (_ & _ & S & _).
    destruct (S firstView eq_refl) as [F SS].
    assert (L : Forall (fun s =>
                  exists count,
                    countSeen (fst s) = Some count /\
                    nonce (snd s) = (count + index (fst s))%nat)
                (submissions firstView
                   (trace (EVMSwapExecutor.retryLoop tx
                      (maxRetries_or_3 networkConfig)
                      (maxRetries_or_3 networkConfig - 0) 0 w)))).
    { eapply Forall_impl; [|exact F].
      intros s [_ (c & fd & Hc & _ & Hn & _)]. exists c. auto. }
    split; [exact L|].
    intros l1 a l2 b l3 ca cb E Ha Hb.
    rewrite E in SS, L.
    pose proof (@sorted_later _ _ l1 _ a SS) as Later.
    rewrite Forall_forall in Later.
    assert (Hab : earlier a b) by (apply Later, in_elt).
    unfold earlier in Hab. split; [exact Hab|].
    rewrite Forall_forall in L.
    destruct (L a (in_elt _ _ _)) as (ca' & Ea & Na).
    assert (Ib : In b (l1 ++ a :: l2 ++ b :: l3)).
    { apply in_or_app. right. right. apply in_elt. }
    destruct (L b Ib) as (cb' & Eb & Nb).
    rewrite Ha in Ea. rewrite Hb in Eb.
    injection Ea as <-. injection Eb as <-.
    split; [lia|]. intros Hle. lia.
  - unmonad. simpl. split; [constructor|].
    intros l1 a l2 b l3 ca cb E. destruct l1; discriminate E.
Qed.

(** On [feeDropWorld] both attempts read the count 7: the submissions use
    nonces 7 and 8, and the ordering follows from the counts read. *)
Lemma nonce_is_count_plus_attempt_index_witness :
  let subs :=
    submissions firstView
      (trace (EVMSwapExecutor.executeEvmTransaction
                walletConfig defaultChain sampleTx feeDropWorld)) in
  exists a b,
    subs = [a; b] /\
    countSeen (fst a) = Some 7%nat /\
    countSeen (fst b) = Some 7%nat /\
    nonce (snd a) = 7%nat /\
    nonce (snd b) = 8%nat /\
    (index (fst a) < index (fst b))%nat /\
    (nonce (snd a) < nonce (snd b))%nat.
Proof.
  cbv zeta.
  destruct (nonce_is_count_plus_attempt_index
              walletConfig defaultChain sampleTx feeDropWorld) as [_ O].
  eexists. eexists.
  split; [reflexivity|].
  split; [reflexivity|]. split; [reflexivity|].
  split; [reflexivity|]. split; [reflexivity|].
  destruct (O [] _ [] _ [] 7%nat 7%nat eq_refl eq_refl eq_refl)
    as (I & _ & N).
  split; [exact I | exact (N (le_n 7))].
Defined.

(** C7 as stated fails.  On [countDropWorld] the provider answers 10 to
    the first attempt and 8 to the second: the swap is confirmed at its
    second attempt, whose nonce, 9, is below the nonce of the first, 10. *)
Lemma nonce_falls_with_the_count :
  let run :=
    EVMSwapExecutor.executeEvmTransaction
      walletConfig defaultChain sampleTx countDropWorld in
  outcome run = Ok (mkReceipt "0xbbb" 42) /\
  exists s0 s1,
    submissions firstView (trace run) = [s0; s1] /\
    index (fst s0) = 0%nat /\
    index (fst s1) = 1%nat /\
    nonce (snd s0) = 10%nat /\
    nonce (snd s1) = 9%nat /\
    (nonce (snd s1) < nonce (snd s0))%nat.
Proof.
  cbv zeta. split; [reflexivity|].
  eexists. eexists.
  split; [reflexivity|].
  repeat split; try reflexivity.
  vm_compute. lia.
Qed.

(** ** The confirmation wait *)
Section WaitFacts.
Context {W : Type} `{Environment W}.

(** Whatever the world answers: pauses of 2000 ms only, one after each
    poll but possibly the last, and no more polls than the fuel. *)
Lemma poll_schedule (fuel a : nat) (h : string) (w : W) :
  let t := trace (EVMSwapExecutor.pollReceipt fuel a h w) in
  exists k,
    timers t = repeat 2000 k /\
    (receiptPolls t <= fuel)%nat /\
    (k <= receiptPolls t <= k + 1)%nat.
Proof.
  revert a w. induction fuel as [|fuel IH]; intros a w; simpl.
  - exists 0%nat. unmonad. unfold receiptPolls. simpl. repeat split; lia.
  - unmonad.
    destruct (getTransactionReceipt h w) as [[[r|]|e] w1]; simpl;
      try (exists 0%nat; unfold receiptPolls; simpl; repeat split; lia).
    destruct (getTransaction h w1) as [[[p|]|e] w2]; simpl;
      try (exists 0%nat; unfold receiptPolls; simpl; repeat split; lia).
    + specialize (IH (S a) (setTimeout 2000 w2)).
      destruct (EVMSwapExecutor.pollReceipt fuel (S a) h (setTimeout 2000 w2))
        as [[r w3] t3]. simpl in *.
      destruct IH as (k & T & P1 & P2).
      exists (S k). unfold receiptPolls in *. simpl. rewrite T.
      repeat split; lia.
    + destruct (getNetwork w2) as [[n|e] w3]; simpl;
        exists 0%nat; unfold receiptPolls; simpl; repeat split; lia.
Qed.

(** After [n] pending polls the loop is where it would be had it started
    [n] rounds later, with [n] polls and [n] pauses behind it. *)
Lemma poll_after_pending (h : string) (n : nat) (w w1 : W) :
  StillPending h n w w1 ->
  forall rest a,
  exists t,
    timers t = repeat 2000 n /\
    receiptPolls t = n /\
    EVMSwapExecutor.pollReceipt (n + rest) a h w =
    (outcome (EVMSwapExecutor.pollReceipt rest (a + n) h w1),
     world (EVMSwapExecutor.pollReceipt rest (a + n) h w1),
     t ++ trace (EVMSwapExecutor.pollReceipt rest (a + n) h w1)).
Proof.
  induction 1 as [w | n w wa wb w' p R P _ IH]; intros rest a.
  - exists []. rewrite Nat.add_0_r. simpl.
    destruct (EVMSwapExecutor.pollReceipt rest a h w) as [[r w2] t2].
    repeat split.
  - destruct (IH rest (S a)) as (t & T1 & T2 & E).
    exists ([EvGetTransactionReceipt h (Ok None);
             EvGetTransaction h (Ok (Some p));
             EvConsole (LogStillPending (a + 1) EVMSwapExecutor.maxAttempts);
             EvSetTimeout 2000] ++ t).
    split; [simpl; rewrite T1; reflexivity|].
    split; [unfold receiptPolls in *; simpl; rewrite T2; reflexivity|].
    simpl. unmonad. rewrite R. simpl. rewrite P. simpl. rewrite E.
    replace (S a + n)%nat with (a + S n)%nat by lia. reflexivity.
Qed.
End WaitFacts.

Lemma wait_outcomes_by_fuel
      {W : Type} `{Environment W} (fuel : nat) (h : string) (w : W) :
  let run :=
    (sleep 5000 ;;; console LogWaiting ;;;
     EVMSwapExecutor.pollReceipt fuel 0 h) w in
  (exists t k,
      trace run = EvSetTimeout 5000 :: EvConsole LogWaiting :: t /\
      timers t = repeat 2000 k /\
      (receiptPolls t <= fuel)%nat /\
      (k <= receiptPolls t <= k + 1)%nat) /\
  (forall n w1,
      StillPending h n (setTimeout 5000 w) w1 ->
      ((n < fuel)%nat ->
       forall r w2,
         getTransactionReceipt h w1 = (Ok (Some r), w2) ->
         outcome run = Ok r /\
         receiptPolls (trace run) = (n + 1)%nat /\
         timers (trace run) = 5000 :: repeat 2000 n /\
         In (EvConsole (LogConfirmed (blockNumber r))) (trace run)) /\
      ((n < fuel)%nat ->
       forall w2 w3 net w4,
         getTransactionReceipt h w1 = (Ok None, w2) ->
         getTransaction h w2 = (Ok None, w3) ->
         getNetwork w3 = (Ok net, w4) ->
         outcome run = Thrown Dropped /\
         receiptPolls (trace run) = (n + 1)%nat /\
         timers (trace run) = 5000 :: repeat 2000 n) /\
      ((n < fuel)%nat ->
       forall w2 w3 e w4,
         getTransactionReceipt h w1 = (Ok None, w2) ->
         getTransaction h w2 = (Ok None, w3) ->
         getNetwork w3 = (Thrown e, w4) ->
         outcome run = Thrown e) /\
      (n = fuel ->
       outcome run = Thrown TimedOut /\
       receiptPolls (trace run) = fuel /\
       timers (trace run) = 5000 :: repeat 2000 fuel)).
Proof.
  cbv zeta. split.
  - unmonad.
    pose proof (poll_schedule fuel 0 h (setTimeout 5000 w)) as P.
    destruct (EVMSwapExecutor.pollReceipt fuel 0 h (setTimeout 5000 w))
      as [[r w1] t1].
    simpl in *. destruct P as (k & T & P1 & P2).
    exists t1, k. auto.
  - intros n w1 SP.
    assert (PRE : (n <= fuel)%nat -> exists t,
               timers t = repeat 2000 n /\ receiptPolls t = n /\
               EVMSwapExecutor.pollReceipt fuel 0 h (setTimeout 5000 w) =
               (outcome (EVMSwapExecutor.pollReceipt (fuel - n) n h w1),
                world (EVMSwapExecutor.pollReceipt (fuel - n) n h w1),
                t ++ trace (EVMSwapExecutor.pollReceipt (fuel - n) n h w1))).
    { intros L.
      destruct (poll_after_pending SP (fuel - n) 0) as (t & T1 & T2 & E).
      exists t. replace (n + (fuel - n))%nat with fuel in E by lia.
      simpl in E. auto. }
    split; [|split; [|split]].
    + intros L r w2 R. destruct (PRE ltac:(lia)) as (t & T1 & T2 & E).
      unmonad. rewrite E. clear E.
      destruct (fuel - n)%nat as [|m] eqn:F; [lia|].
      simpl. unmonad. rewrite R. simpl.
      split; [reflexivity|]. split; [|split].
      * unfold receiptPolls in *. simpl.
        rewrite filter_app, length_app, T2. simpl. lia.
      * rewrite timers_app, T1. simpl. rewrite app_nil_r. reflexivity.
      * right. right. apply in_or_app. right. simpl. auto.
    + intros L w2 w3 net w4 R P N.
      destruct (PRE ltac:(lia)) as (t & T1 & T2 & E).
      unmonad. rewrite E. clear E.
      destruct (fuel - n)%nat as [|m] eqn:F; [lia|].
      simpl. unmonad. rewrite R. simpl. rewrite P. simpl. rewrite N. simpl.
      split; [reflexivity|]. split.
      * unfold receiptPolls in *. simpl.
        rewrite filter_app, length_app, T2. simpl. lia.
      * rewrite timers_app, T1. simpl. rewrite app_nil_r. reflexivity.
    + intros L w2 w3 e w4 R P N.
      destruct (PRE ltac:(lia)) as (t & T1 & T2 & E).
      unmonad. rewrite E. clear E.
      destruct (fuel - n)%nat as [|m] eqn:F; [lia|].
      simpl. unmonad. rewrite R. simpl. rewrite P. simpl. rewrite N. simpl.
      reflexivity.
    + intros L. destruct (PRE ltac:(lia)) as (t & T1 & T2 & E).
      unmonad. rewrite E. clear E.
      replace (fuel - n)%nat with 0%nat by lia. subst n.
      simpl. unmonad. simpl.
      split; [reflexivity|]. split.
      * unfold receiptPolls in *. simpl.
        rewrite filter_app, length_app, T2. simpl. lia.
      * rewrite timers_app, T1. simpl. rewrite app_nil_r. reflexivity.
Qed.

(** X17.  A confirmation wait first pauses 5 time units
    (5000 ms), then polls for the receipt at most 30 times with a pause of
    2 time units (2000 ms) after every poll that finds the transaction
    still pending.  After [n < 30] pending polls: a receipt ends the wait
    with that receipt (its block number is logged); no receipt and a
    transaction unknown to the pending pool end it with [Dropped] once the
    network lookup made for the log line has answered, and with the error
    of that lookup when it rejects.  After 30 pending polls the wait ends
    with [TimedOut]. *)
Theorem confirmation_wait_outcomes
        {W : Type} `{Environment W} (h : string) (w : W) :
  let run := EVMSwapExecutor.waitForConfirmation h w in
  (exists t k,
      trace run = EvSetTimeout (5 * timeUnit) :: EvConsole LogWaiting :: t /\
      timers t = repeat (2 * timeUnit) k /\
      (receiptPolls t <= 30)%nat /\
      (k <= receiptPolls t <= k + 1)%nat) /\
  (forall n w1,
      StillPending h n (setTimeout (5 * timeUnit) w) w1 ->
      ((n < 30)%nat ->
       forall r w2,
         getTransactionReceipt h w1 = (Ok (Some r), w2) ->
         outcome run = Ok r /\
         receiptPolls (trace run) = (n + 1)%nat /\
         timers (trace run) = 5 * timeUnit :: repeat (2 * timeUnit) n /\
         In (EvConsole (LogConfirmed (blockNumber r))) (trace run)) /\
      ((n < 30)%nat ->
       forall w2 w3 net w4,
         getTransactionReceipt h w1 = (Ok None, w2) ->
         getTransaction h w2 = (Ok None, w3) ->
         getNetwork w3 = (Ok net, w4) ->
         outcome run = Thrown Dropped /\
         receiptPolls (trace run) = (n + 1)%nat /\
         timers (trace run) = 5 * timeUnit :: repeat (2 * timeUnit) n) /\
      ((n < 30)%nat ->
       forall w2 w3 e w4,
         getTransactionReceipt h w1 = (Ok None, w2) ->
         getTransaction h w2 = (Ok None, w3) ->
         getNetwork w3 = (Thrown e, w4) ->
         outcome run = Thrown e) /\
      (n = 30%nat ->
       outcome run = Thrown TimedOut /\
       receiptPolls (trace run) = 30%nat /\
       timers (trace run) = 5 * timeUnit :: repeat (2 * timeUnit) 30)).
Proof.
  exact (wait_outcomes_by_fuel 30 h w).
Qed.

(** On [confirmedThirdPollWorld] two polls find the transaction pending
    and the third finds the receipt. *)
Lemma confirmation_wait_outcomes_witness :
  let run :=
    EVMSwapExecutor.waitForConfirmation "0xaaa" confirmedThirdPollWorld in
  outcome run = Ok (mkReceipt "0xaaa" 42) /\
  receiptPolls (trace run) = 3%nat /\
  timers (trace run) = [5 * timeUnit; 2 * timeUnit; 2 * timeUnit] /\
  In (EvConsole (LogConfirmed 42)) (trace run).
Proof.
  cbv zeta.
  destruct (confirmation_wait_outcomes "0xaaa" confirmedThirdPollWorld)
    as [_ O].
  eapply (O 2%nat).
  - eapply pending_more; [reflexivity | reflexivity |].
    eapply pending_more; [reflexivity | reflexivity |].
    apply pending_none.
  - lia.
  - reflexivity.
Defined.

(** C5 at its failing input.  On [droppedNetworkDownWorld] the first poll
    finds no receipt and the transaction is unknown to the pending pool,
    yet the wait does not end with [Dropped]: the network lookup awaited
    for the log line, just before the dropped error is thrown, rejects,
    and its error ends the wait. *)
Theorem dropped_masked_by_network_lookup :
  let run :=
    EVMSwapExecutor.waitForConfirmation "0xaaa" droppedNetworkDownWorld in
  trace run =
    [EvSetTimeout 5000; EvConsole LogWaiting;
     EvGetTransactionReceipt "0xaaa" (Ok None);
     EvGetTransaction "0xaaa" (Ok None);
     EvGetNetwork (Thrown networkDown)] /\
  outcome run = Thrown networkDown /\
  outcome run <> Thrown Dropped.
Proof.
  cbv zeta. split; [reflexivity|]. split; [reflexivity|].
  vm_compute. discriminate.
Qed.

(** ** Fee estimation *)

(** C6, as the code has it.  In an attempt of either loop, a fee query
    that answers without a suggestion is made up for by the fallback
    constants, 0 for the base fee and 3 gwei for the priority fee, before
    scaling; a fee query that rejects is not made up for: its error ends
    the attempt before anything is submitted. *)
Theorem fee_fallbacks_and_oracle_errors
        {W : Type} `{Environment W}
        (tx : TxData) (retryCount : nat)
        (token spender : string) (amount : Z) (w : W) :
  let swap := EVMSwapExecutor.attempt tx retryCount w in
  let approval := EVMApproveExecutor.attempt token spender amount w in
  (forall count w1,
      getTransactionCount "latest" w = (Ok count, w1) ->
      (forall fd w2,
          getFeeData w1 = (Ok fd, w2) ->
          Forall (fun s =>
                    maxFeePerGas (snd s) =
                      mul_div (match fd_maxFeePerGas fd with
                               | Some b => b
                               | None => 0
                               end) 110 100 /\
                    maxPriorityFeePerGas (snd s) =
                      mul_div (match fd_maxPriorityFeePerGas fd with
                               | Some p => p
                               | None => 3000000000
                               end) 110 100)
                 (submissions firstView (trace swap))) /\
      (forall e w2,
          getFeeData w1 = (Thrown e, w2) ->
          outcome swap = Thrown e /\ submitted (trace swap) = 0%nat)) /\
  (forall fd w1,
      getFeeData w = (Ok fd, w1) ->
      Forall (fun s =>
                ov_maxFeePerGas (snd s) =
                  mul_div (match fd_maxFeePerGas fd with
                           | Some b => b
                           | None => 0
                           end) 150 100 /\
                ov_maxPriorityFeePerGas (snd s) =
                  mul_div (match fd_maxPriorityFeePerGas fd with
                           | Some p => p
                           | None => 3000000000
                           end) 150 100)
             (approvals firstView (trace approval))) /\
  (forall e w1,
      getFeeData w = (Thrown e, w1) ->
      outcome approval = Thrown e /\ submitted (trace approval) = 0%nat).
Proof.
  cbv zeta. split; [|split].
  - intros count w1 C. split.
    + intros fd w2 F.
      unfold EVMSwapExecutor.attempt. unmonad. rewrite C. simpl.
      rewrite F. simpl.
      destruct (match truthy (tx_value tx) with
                | Some v => BigNumber_from v
                | None => Ok 0
                end) as [val|e]; simpl; [|constructor].
      destruct (match truthy (tx_gas tx) with
                | Some g => BigNumber_from g
                | None => Ok 0
                end) as [gas|e]; simpl; [|constructor].
      match goal with
      | |- context [sendTransaction ?t w2] =>
          destruct (sendTransaction t w2) as [[resp|e] w3]; simpl
      end.
      * pose proof (wait_trace_cases (hash resp) w3) as P.
        destruct (EVMSwapExecutor.waitForConfirmation (hash resp) w3)
          as [[r w4] t4].
        simpl in *. destruct P as (_ & P2 & _).
        destruct (P2 (mkView 0 (Some count) (Some fd))) as [Q _].
        rewrite Q. constructor; [|constructor]. simpl. auto.
      * constructor; [|constructor]. simpl. auto.
    + intros e w2 F.
      unfold EVMSwapExecutor.attempt. unmonad. rewrite C. simpl.
      rewrite F. simpl. auto.
  - intros fd w1 F.
    unfold EVMApproveExecutor.attempt. unmonad. rewrite F. simpl.
    match goal with
    | |- context [approve token spender amount ?o w1] =>
        destruct (approve token spender amount o w1) as [[resp|e] w2]; simpl
    end.
    + destruct (wait (hash resp) w2) as [[r|e] w3]; simpl;
        (constructor; [|constructor]); simpl; auto.
    + constructor; [|constructor]. simpl. auto.
  - intros e w1 F.
    unfold EVMApproveExecutor.attempt. unmonad. rewrite F. simpl. auto.
Qed.

(** On [noSuggestionWorld] both requests are built from the fallbacks; on
    [feeOracleDownWorld] the rejected fee query ends the attempts. *)
Lemma fee_fallbacks_and_oracle_errors_witness :
  let swap := EVMSwapExecutor.attempt sampleTx 0 noSuggestionWorld in
  let approval :=
    EVMApproveExecutor.attempt "0xToken" "0xSpender" 1000 noSuggestionWorld in
  (List.length (submissions firstView (trace swap)) = 1%nat /\
   Forall (fun s =>
             maxFeePerGas (snd s) = 0 /\
             maxPriorityFeePerGas (snd s) = 3300000000)
          (submissions firstView (trace swap))) /\
  (List.length (approvals firstView (trace approval)) = 1%nat /\
   Forall (fun s =>
             ov_maxFeePerGas (snd s) = 0 /\
             ov_maxPriorityFeePerGas (snd s) = 4500000000)
          (approvals firstView (trace approval))) /\
  outcome (EVMSwapExecutor.attempt sampleTx 0 feeOracleDownWorld)
    = Thrown oracleDown /\
  outcome (EVMApproveExecutor.attempt "0xToken" "0xSpender" 1000
             feeOracleDownWorld)
    = Thrown oracleDown.
Proof.
  cbv zeta.
  destruct (fee_fallbacks_and_oracle_errors
              sampleTx 0 "0xToken" "0xSpender" 1000 noSuggestionWorld)
    as (S & A & _).
  destruct (fee_fallbacks_and_oracle_errors
              sampleTx 0 "0xToken" "0xSpender" 1000 feeOracleDownWorld)
    as (S' & _ & A').
  split; [split; [reflexivity|]|split; [split; [reflexivity|]|split]].
  - destruct (S 7%nat _ eq_refl) as [S1 _].
    exact (S1 (mkFeeData None None) _ eq_refl).
  - exact (A (mkFeeData None None) _ eq_refl).
  - destruct (S' 7%nat _ eq_refl) as [_ S2].
    exact (proj1 (S2 oracleDown _ eq_refl)).
  - exact (proj1 (A' oracleDown _ eq_refl)).
Defined.

(** C6 as stated fails.  On [feeOracleDownWorld] only the fee query
    rejects; both flows fail with its error after three attempts, and
    nothing is ever submitted. *)
Lemma fee_oracle_outage_blocks_the_flow :
  let swap :=
    EVMSwapExecutor.executeEvmTransaction
      walletConfig defaultChain sampleTx feeOracleDownWorld in
  let approval :=
    EVMApproveExecutor.executeApprovalTransaction
      walletConfig defaultChain "0xToken" "0xSpender" 1000
      feeOracleDownWorld in
  outcome swap = Thrown oracleDown /\
  submitted (trace swap) = 0%nat /\
  List.length (filter (fun e => match e with
                                | EvGetFeeData _ => true
                                | _ => false
                                end) (trace swap)) = 3%nat /\
  outcome approval = Thrown oracleDown /\
  submitted (trace approval) = 0%nat.
Proof.
  cbv zeta. repeat split; reflexivity.
Qed.

(** ** The approval executor *)

(** C10.  [executeSwap] of the approval executor throws, whatever it is
    given, and touches nothing: no call is made and the world is left as
    it was. *)
Theorem approval_executor_never_swaps
        {W : Type} (SwapParams : Type)
        (swapData : SwapResponseData) (params : SwapParams) (w : W) :
  EVMApproveExecutor.executeSwap swapData params w =
  (Thrown (newError "Swap execution not supported in approval executor"),
   w, []).
Proof.
  reflexivity.
Qed.

(** C4, as the code has it.  When the dex contract address is found, the
    allowance is read and the amount parses, an allowance that already
    covers the amount makes [handleTokenApproval] throw "Token already
    approved for the requested amount": nothing is submitted, and the
    flow fails rather than returns. *)
Theorem sufficient_allowance_throws_without_submitting
        {W : Type} `{Environment W}
        (config : OKXConfig) (networkConfig : ChainConfig)
        (chain token amount : string) (w w1 w2 : W)
        (wallet : EVMWallet) (response : APIResponse)
        (first : ChainData) (others : list ChainData)
        (dex : string) (currentAllowance requiredAmount : Z) :
  evm_wallet config = Some wallet ->
  request "GET" "/api/v5/dex/aggregator/supported/chain" chain w
    = (Ok response, w1) ->
  api_data response = Some (first :: others) ->
  truthy (dexTokenApproveAddress first) = Some dex ->
  allowance token (address wallet) dex w1 = (Ok currentAllowance, w2) ->
  BigNumber_from amount = Ok requiredAmount ->
  requiredAmount <= currentAllowance ->
  let run :=
    EVMApproveExecutor.handleTokenApproval
      config networkConfig chain token amount w in
  outcome run =
    Thrown (newError "Token already approved for the requested amount") /\
  submitted (trace run) = 0%nat /\
  trace run =
    [EvRequest "GET" "/api/v5/dex/aggregator/supported/chain" chain
       (Ok response);
     EvAllowance token (address wallet) dex (Ok currentAllowance)] /\
  world run = w2.
Proof.
  intros Hw Hr Hd Ht Ha Hb Hle. cbv zeta.
  unfold EVMApproveExecutor.handleTokenApproval,
    EVMApproveExecutor.getDexContractAddress,
    EVMApproveExecutor.getAllowance.
  rewrite Hw. unmonad. rewrite Hr. simpl. rewrite Hd, Ht. simpl.
  rewrite Ha. simpl. rewrite Hb. simpl.
  destruct (Z.geb_spec currentAllowance requiredAmount) as [_|Hlt]; [|lia].
  simpl. repeat split.
Qed.

(** On [alreadyApprovedWorld] the allowance is 1000 and 500 is asked. *)
Lemma sufficient_allowance_throws_without_submitting_witness :
  let run :=
    EVMApproveExecutor.handleTokenApproval
      walletConfig defaultChain "1" "0xToken" "500" alreadyApprovedWorld in
  outcome run =
    Thrown (newError "Token already approved for the requested amount") /\
  submitted (trace run) = 0%nat.
Proof.
  cbv zeta.
  destruct (@sufficient_allowance_throws_without_submitting
              Script scripted walletConfig defaultChain "1" "0xToken" "500"
              alreadyApprovedWorld _ _ (mkWallet "0xOwner") supportedChain
              (mkChainData (Some "0xDex")) [] "0xDex" 1000 500
              eq_refl eq_refl eq_refl eq_refl eq_refl eq_refl
              ltac:(lia))
    as (O & S & _).
  split; [exact O | exact S].
Defined.

(** C4 as stated fails.  On [alreadyApprovedWorld] the approval flow
    submits nothing, but it does not return: it fails with an error. *)
Lemma sufficient_allowance_is_a_failure :
  let run :=
    EVMApproveExecutor.handleTokenApproval
      walletConfig defaultChain "1" "0xToken" "500" alreadyApprovedWorld in
  submitted (trace run) = 0%nat /\
  (exists e, outcome run = Thrown e) /\
  (forall h, outcome run <> Ok h).
Proof.
  cbv zeta. split; [reflexivity|]. split.
  - eexists. reflexivity.
  - intros h. vm_compute. discriminate.
Qed.

(** ** Terminal errors *)

(** In the swap loop an attempt that fails with code INSUFFICIENT_FUNDS or
    NONCE_EXPIRED ends the flow at once: the failure line is the last
    event, no pause and no further attempt follow. *)
Lemma swap_aborts_on_terminal_error
      {W : Type} `{Environment W}
      (tx : TxData) (m fuel k : nat) (w : W) (e : Error) :
  outcome (EVMSwapExecutor.attempt tx k w) = Thrown e ->
  terminal e = true ->
  let run := EVMSwapExecutor.retryLoop tx m (S fuel) k w in
  (outcome run = Thrown (newError "Insufficient funds for transaction") \/
   outcome run = Thrown (newError "Transaction nonce expired")) /\
  world run = world (EVMSwapExecutor.attempt tx k w) /\
  trace run =
    trace (EVMSwapExecutor.attempt tx k w) ++
    [EvConsole (ErrAttemptFailed (S k) (message e))].
Proof.
  intros O T. cbv zeta. simpl. unmonad.
  destruct (EVMSwapExecutor.attempt tx k w) as [[[r|e'] w1] t1];
    simpl in *; [discriminate|].
  injection O as ->. unfold terminal in T.
  destruct (code_is e "INSUFFICIENT_FUNDS"); simpl; [auto|].
  simpl in T. rewrite T. simpl. auto.
Qed.

(** C3 at its failing input.  On [insufficientFundsWorld] every submission
    is rejected with code INSUFFICIENT_FUNDS.  The swap loop gives up
    after the first submission; the approval loop, which does not look at
    the code, submits three times, pausing 2000 ms and 4000 ms in between,
    before it rethrows the error, also when entered through
    [handleTokenApproval]. *)
Theorem approval_retries_insufficient_funds :
  let swap :=
    EVMSwapExecutor.executeEvmTransaction
      walletConfig defaultChain sampleTx insufficientFundsWorld in
  let approval :=
    EVMApproveExecutor.executeApprovalTransaction
      walletConfig defaultChain "0xToken" "0xDex" 500
      insufficientFundsWorld in
  let handled :=
    EVMApproveExecutor.handleTokenApproval
      walletConfig defaultChain "1" "0xToken" "500"
      insufficientFundsWorld in
  (outcome swap = Thrown (newError "Insufficient funds for transaction") /\
   submitted (trace swap) = 1%nat /\
   timers (trace swap) = []) /\
  (outcome approval = Thrown insufficientFunds /\
   submitted (trace approval) = 3%nat /\
   timers (trace approval) = [2000; 4000]) /\
  (outcome handled = Thrown insufficientFunds /\
   submitted (trace handled) = 3%nat /\
   timers (trace handled) = [2000; 4000]).
Proof.
  cbv zeta. repeat split; reflexivity.
Qed.

(** ** Exhausted retries *)
Section Exhaustion.
Context {W : Type} `{Environment W}.
Variable networkConfig : ChainConfig.

Lemma swap_all_fail_rethrows (tx : TxData) (k : nat) (w : W) (e : Error) :
  SwapAllFail networkConfig tx k w e ->
  forall fuel,
    (k + fuel = maxRetries_or_3 networkConfig)%nat ->
    outcome (EVMSwapExecutor.retryLoop tx (maxRetries_or_3 networkConfig)
               fuel k w) = Thrown e.
Proof.
  induction 1 as [k w e Hk O T | k w e e' Hk O T _ IH]; intros fuel Hf.
  - destruct fuel as [|fuel]; [lia|]. simpl. unmonad.
    destruct (EVMSwapExecutor.attempt tx k w) as [[[r|e0] w1] t1];
      simpl in *; [discriminate|].
    injection O as ->. unfold terminal in T.
    apply orb_false_elim in T. destruct T as [T1 T2].
    rewrite T1, T2. simpl.
    rewrite Hk, Nat.eqb_refl. reflexivity.
  - destruct fuel as [|fuel]; [lia|]. simpl. unmonad.
    specialize (IH fuel ltac:(lia)).
    destruct (EVMSwapExecutor.attempt tx k w) as [[[r|e0] w1] t1];
      simpl in *; [discriminate|].
    injection O as ->. unfold terminal in T.
    apply orb_false_elim in T. destruct T as [T1 T2].
    rewrite T1, T2. simpl.
    destruct (Nat.eqb_spec (S k) (maxRetries_or_3 networkConfig)) as [E|_];
      [lia|].
    simpl. unfold world in IH. simpl in IH.
    destruct (EVMSwapExecutor.retryLoop tx (maxRetries_or_3 networkConfig)
                fuel (S k) (setTimeout (2000 * Z.of_nat (S k)) w1))
      as [[r2 w2] t2].
    exact IH.
Qed.

Lemma approval_all_fail_rethrows
      (token spender : string) (amount : Z) (k : nat) (w : W) (e : Error) :
  ApprovalAllFail networkConfig token spender amount k w e ->
  forall fuel,
    (k + fuel = maxRetries_or_3 networkConfig)%nat ->
    outcome (EVMApproveExecutor.retryLoop token spender amount
               (maxRetries_or_3 networkConfig) fuel k w) = Thrown e.
Proof.
  induction 1 as [k w e Hk O | k w e e' Hk O _ IH]; intros fuel Hf.
  - destruct fuel as [|fuel]; [lia|]. simpl. unmonad.
    destruct (EVMApproveExecutor.attempt token spender amount w)
      as [[[r|e0] w1] t1]; simpl in *; [discriminate|].
    injection O as ->.
    rewrite Hk, Nat.eqb_refl. reflexivity.
  - destruct fuel as [|fuel]; [lia|]. simpl. unmonad.
    specialize (IH fuel ltac:(lia)).
    destruct (EVMApproveExecutor.attempt token spender amount w)
      as [[[r|e0] w1] t1]; simpl in *; [discriminate|].
    injection O as ->.
    destruct (Nat.eqb_spec (S k) (maxRetries_or_3 networkConfig)) as [E|_];
      [lia|].
    simpl. unfold world in IH. simpl in IH.
    destruct (EVMApproveExecutor.retryLoop token spender amount
                (maxRetries_or_3 networkConfig) fuel (S k)
                (setTimeout (2000 * Z.of_nat (S k)) w1))
      as [[r2 w2] t2].
    exact IH.
Qed.
End Exhaustion.

(** C8, as the code has it.  When every attempt up to [maxRetries] fails
    with an error that the loop retries (any error in the approval loop,
    any error but the two terminal codes in the swap loop), the flow fails
    by rethrowing the error of the last attempt, as it is. *)
Theorem exhausted_retries_rethrow_last_error
        {W : Type} `{Environment W}
        (config : OKXConfig) (networkConfig : ChainConfig)
        (wallet : EVMWallet) (tx : TxData)
        (token spender : string) (amount : Z) (w : W) (e : Error) :
  evm_wallet config = Some wallet ->
  (SwapAllFail networkConfig tx 0 w e ->
   outcome (EVMSwapExecutor.executeEvmTransaction config networkConfig tx w)
     = Thrown e) /\
  (ApprovalAllFail networkConfig token spender amount 0 w e ->
   outcome (EVMApproveExecutor.executeApprovalTransaction
              config networkConfig token spender amount w)
     = Thrown e).
Proof.
  intros Hw.
  unfold EVMSwapExecutor.executeEvmTransaction,
    EVMApproveExecutor.executeApprovalTransaction.
  rewrite Hw. split; intros A.
  - apply swap_all_fail_rethrows; [exact A | lia].
  - apply approval_all_fail_rethrows; [exact A | lia].
Qed.

(** On [allRejectedWorld] the three attempts of either loop fail, the last
    one with [rejected "3"]. *)
Lemma exhausted_retries_rethrow_last_error_witness :
  outcome (EVMSwapExecutor.executeEvmTransaction
             walletConfig defaultChain sampleTx allRejectedWorld)
    = Thrown (rejected "3") /\
  outcome (EVMApproveExecutor.executeApprovalTransaction
             walletConfig defaultChain "0xToken" "0xDex" 500 allRejectedWorld)
    = Thrown (rejected "3").
Proof.
  destruct (@exhausted_retries_rethrow_last_error
              Script scripted walletConfig defaultChain (mkWallet "0xOwner")
              sampleTx "0xToken" "0xDex" 500 allRejectedWorld (rejected "3")
              eq_refl) as [S A].
  split.
  - apply S.
    eapply swap_fail_more; [vm_compute; lia | reflexivity | reflexivity |].
    eapply swap_fail_more; [vm_compute; lia | reflexivity | reflexivity |].
    eapply swap_fail_last; reflexivity.
  - apply A.
    eapply approval_fail_more; [vm_compute; lia | reflexivity |].
    eapply approval_fail_more; [vm_compute; lia | reflexivity |].
    eapply approval_fail_last; reflexivity.
Defined.

(** C8 as stated fails.  On [allRejectedWorld] all three attempts of
    either loop fail with errors that are retried, and the flow fails with
    the third error itself: no exhaustion error is raised, and the errors
    thrown after the loops are not reached. *)
Lemma exhaustion_raises_no_error_of_its_own :
  let swap :=
    EVMSwapExecutor.executeEvmTransaction
      walletConfig defaultChain sampleTx allRejectedWorld in
  let approval :=
    EVMApproveExecutor.executeApprovalTransaction
      walletConfig defaultChain "0xToken" "0xDex" 500 allRejectedWorld in
  submitted (trace swap) = 3%nat /\
  outcome swap = Thrown (rejected "3") /\
  outcome swap <> Thrown MaxRetriesExceeded /\
  submitted (trace approval) = 3%nat /\
  outcome approval = Thrown (rejected "3") /\
  outcome approval <> Thrown ApprovalMaxRetriesExceeded.
Proof.
  cbv zeta.
  repeat split; try reflexivity; vm_compute; discriminate.
Qed.

(** ** The result of a swap *)
Section ReceiptHash.
Context {W : Type} `{Environment W}.

Lemma poll_receipt_hash (fuel a : nat) (h : string) (w : W) (r : Receipt) :
  receiptsMatch (trace (EVMSwapExecutor.pollReceipt fuel a h w)) = true ->
  outcome (EVMSwapExecutor.pollReceipt fuel a h w) = Ok r ->
  transactionHash r = h.
Proof.
  revert a w. induction fuel as [|fuel IH]; intros a w; simpl.
  - unmonad. simpl. discriminate.
  - unmonad.
    destruct (getTransactionReceipt h w) as [[[r'|]|e] w1]; simpl;
      try discriminate.
    + intros M O. injection O as <-.
      rewrite andb_true_r in M. apply String.eqb_eq. exact M.
    + destruct (getTransaction h w1) as [[[p|]|e] w2]; simpl;
        try discriminate.
      * specialize (IH (S a) (setTimeout 2000 w2)).
        destruct (EVMSwapExecutor.pollReceipt fuel (S a) h
                    (setTimeout 2000 w2)) as [[r2 w3] t3].
        simpl in *. exact IH.
      * destruct (getNetwork w2) as [[n|e] w3]; simpl; discriminate.
Qed.

Lemma attempt_receipt_hash (tx : TxData) (k : nat) (w : W) (r : Receipt) :
  receiptsMatch (trace (EVMSwapExecutor.attempt tx k w)) = true ->
  outcome (EVMSwapExecutor.attempt tx k w) = Ok r ->
  exists resp,
    lastSent (trace (EVMSwapExecutor.attempt tx k w)) = Some (Ok resp) /\
    transactionHash r = hash resp.
Proof.
  unfold EVMSwapExecutor.attempt, EVMSwapExecutor.waitForConfirmation.
  generalize (EVMSwapExecutor.maxAttempts - 0)%nat; intros fuel.
  unmonad.
  destruct (getTransactionCount "latest" w) as [[c|e] w1]; simpl;
    try discriminate.
  destruct (getFeeData w1) as [[fd|e] w2]; simpl; try discriminate.
  destruct (match truthy (tx_value tx) with
            | Some v => BigNumber_from v
            | None => Ok 0
            end) as [val|e]; simpl; try discriminate.
  destruct (match truthy (tx_gas tx) with
            | Some g => BigNumber_from g
            | None => Ok 0
            end) as [gas|e]; simpl; try discriminate.
  match goal with
  | |- context [sendTransaction ?t w2] =>
      destruct (sendTransaction t w2) as [[resp|e] w3]; simpl
  end; try discriminate.
  pose proof (@poll_receipt_hash fuel 0 (hash resp) (setTimeout 5000 w3) r)
    as P.
  pose proof (poll_trace_cases fuel 0 (hash resp) (setTimeout 5000 w3))
    as (_ & _ & L & _).
  destruct (EVMSwapExecutor.pollReceipt fuel 0 (hash resp)
              (setTimeout 5000 w3)) as [[r2 w4] t4].
  simpl in *. intros M O. exists resp. rewrite L. split; auto.
Qed.

Lemma loop_receipt_hash (tx : TxData) (m fuel : nat) :
  forall (k : nat) (w : W) (r : Receipt),
    receiptsMatch (trace (EVMSwapExecutor.retryLoop tx m fuel k w)) = true ->
    outcome (EVMSwapExecutor.retryLoop tx m fuel k w) = Ok r ->
    exists resp,
      lastSent (trace (EVMSwapExecutor.retryLoop tx m fuel k w))
        = Some (Ok resp) /\
      transactionHash r = hash resp.
Proof.
  induction fuel as [|fuel IH]; intros k w r; simpl.
  - unmonad. simpl. discriminate.
  - unmonad.
    pose proof (@attempt_receipt_hash tx k w) as A.
    destruct (EVMSwapExecutor.attempt tx k w) as [[[r1|e] w1] t1]; simpl in *.
    + intros M O. injection O as <-. apply A; auto.
    + clear A.
      destruct (code_is e "INSUFFICIENT_FUNDS"); simpl; [discriminate|].
      destruct (code_is e "NONCE_EXPIRED"); simpl; [discriminate|].
      destruct (S k =? m)%nat; simpl; [discriminate|].
      specialize (IH (S k) (setTimeout (2000 * Z.of_nat (S k)) w1) r).
      destruct (EVMSwapExecutor.retryLoop tx m fuel (S k)
                  (setTimeout (2000 * Z.of_nat (S k)) w1))
        as [[r2 w2] t2].
      simpl in *. intros M O.
      unfold receiptsMatch in *. rewrite forallb_app in M.
      apply andb_true_iff in M. destruct M as [_ M]. simpl in M.
      destruct (IH M O) as (resp & L & E).
      exists resp. rewrite lastSent_app. simpl. rewrite L. auto.
Qed.
End ReceiptHash.

(** C9.  When [executeSwap] returns a result, its [transactionId] is the
    hash that [sendTransaction] returned for the last submission, the one
    that was confirmed, and its [explorerUrl] is the explorer base URL of
    the network configuration joined to that identifier by "/".  The
    identifier is read from the receipt; receipts are taken to carry the
    hash they were asked for. *)
Theorem swap_result_identifies_confirmed_submission
        {W : Type} `{Environment W}
        (config : OKXConfig) (networkConfig : ChainConfig)
        (displayAmount : string -> string -> string) (SwapParams : Type)
        (swapData : SwapResponseData) (params : SwapParams)
        (w : W) (result : SwapResult) :
  let run :=
    EVMSwapExecutor.executeSwap
      config networkConfig displayAmount swapData params w in
  receiptsMatch (trace run) = true ->
  outcome run = Ok result ->
  exists response,
    lastSent (trace run) = Some (Ok response) /\
    transactionId result = hash response /\
    explorerUrl result =
      (explorer networkConfig ++ "/" ++ transactionId result)%string /\
    success result = true.
Proof.
  cbv zeta. unfold EVMSwapExecutor.executeSwap.
  destruct (swap_data swapData) as [[|q qs]|]; try (unmonad; discriminate).
  destruct (routerResult q) as [route|]; try (unmonad; discriminate).
  destruct (tx q) as [t|]; try (unmonad; discriminate).
  unfold EVMSwapExecutor.executeEvmTransaction.
  destruct (evm_wallet config) as [wallet|]; [|unmonad; discriminate].
  cbv zeta.
  pose proof (@loop_receipt_hash W _ t (maxRetries_or_3 networkConfig)
                (maxRetries_or_3 networkConfig - 0) 0 w) as L.
  unmonad.
  destruct (EVMSwapExecutor.retryLoop t (maxRetries_or_3 networkConfig)
              (maxRetries_or_3 networkConfig - 0) 0 w) as [[[r|e] w1] t1];
    simpl in *; [|discriminate].
  intros M O. injection O as <-.
  rewrite app_nil_r in *.
  destruct (L r M eq_refl) as (resp & LS & E).
  exists resp. simpl. auto.
Qed.

(** On [feeDropWorld] the second submission, answered with hash "0xbbb",
    is the one confirmed. *)
Lemma swap_result_identifies_confirmed_submission_witness :
  let run :=
    EVMSwapExecutor.executeSwap
      walletConfig defaultChain (fun amount _ => amount)
      sampleSwap tt feeDropWorld in
  exists result response,
    outcome run = Ok result /\
    lastSent (trace run) = Some (Ok response) /\
    hash response = "0xbbb" /\
    transactionId result = hash response /\
    explorerUrl result = "https://explorer.example/tx/0xbbb".
Proof.
  cbv zeta.
  destruct (@swap_result_identifies_confirmed_submission
              Script scripted walletConfig defaultChain
              (fun amount _ => amount) unit sampleSwap tt feeDropWorld
              _ eq_refl eq_refl)
    as (resp & L & I & U & _).
  eexists. exists resp.
  split; [reflexivity|]. split; [exact L|].
  assert (R : hash resp = "0xbbb").
  { vm_compute in L. injection L as <-. reflexivity. }
  split; [exact R|]. split; [exact I|].
  rewrite U, I, R. reflexivity.
Defined.

(** ** Traces have the shapes of [TraceShapes] *)
Section ShapeFacts.
Context {W : Type} `{Environment W}.

Lemma poll_has_shape (h : string) (fuel a : nat) (w : W) :
  PollTrace h fuel a
    (outcome (EVMSwapExecutor.pollReceipt fuel a h w))
    (trace (EVMSwapExecutor.pollReceipt fuel a h w)).
Proof.
  revert a w. induction fuel as [|fuel IH]; intros a w; simpl.
  - unmonad. simpl. constructor.
  - unmonad.
    destruct (getTransactionReceipt h w) as [[[r|]|e] w1]; simpl;
      try (constructor; fail).
    destruct (getTransaction h w1) as [[[p|]|e] w2]; simpl;
      try (constructor; fail).
    + specialize (IH (S a) (setTimeout 2000 w2)).
      destruct (EVMSwapExecutor.pollReceipt fuel (S a) h (setTimeout 2000 w2))
        as [[r w3] t3].
      simpl in *. constructor. exact IH.
    + destruct (getNetwork w2) as [[n|e] w3]; simpl; constructor.
Qed.

Lemma attempt_has_shape (tx : TxData) (k : nat) (w : W) :
  AttemptTrace tx k
    (outcome (EVMSwapExecutor.attempt tx k w))
    (trace (EVMSwapExecutor.attempt tx k w)).
Proof.
  unfold EVMSwapExecutor.attempt, EVMSwapExecutor.waitForConfirmation.
  change (EVMSwapExecutor.maxAttempts - 0)%nat
    with EVMSwapExecutor.maxAttempts.
  remember EVMSwapExecutor.maxAttempts as fuel eqn:F.
  unmonad.
  destruct (getTransactionCount "latest" w) as [[c|e] w1]; simpl;
    [|constructor].
  destruct (getFeeData w1) as [[fd|e] w2]; simpl; [|constructor].
  fold (valueOf tx). fold (gasOf tx).
  destruct (valueOf tx) as [v|e] eqn:V; simpl;
    [|apply attempt_value_rejected; exact V].
  destruct (gasOf tx) as [g|e] eqn:G; simpl;
    [|eapply attempt_gas_rejected; eassumption].
  fold (baseFeeOf fd). fold (priorityFeeOf fd).
  fold (requestOf tx k c fd v g).
  destruct (sendTransaction (requestOf tx k c fd v g) w2)
    as [[resp|e] w3]; simpl;
    [|eapply attempt_send_rejected; eassumption].
  pose proof (poll_has_shape (hash resp) fuel 0 (setTimeout 5000 w3)) as P.
  destruct (EVMSwapExecutor.pollReceipt fuel 0 (hash resp)
              (setTimeout 5000 w3)) as [[r w4] t4].
  simpl in *. subst fuel.
  exact (attempt_sent tx k c fd resp V G P).
Qed.

Lemma loop_has_shape (tx : TxData) (m fuel : nat) :
  forall (k : nat) (w : W),
    LoopTrace tx m fuel k
      (outcome (EVMSwapExecutor.retryLoop tx m fuel k w))
      (trace (EVMSwapExecutor.retryLoop tx m fuel k w)).
Proof.
  induction fuel as [|fuel IH]; intros k w; simpl.
  - unmonad. simpl. constructor.
  - unmonad.
    pose proof (attempt_has_shape tx k w) as A.
    destruct (EVMSwapExecutor.attempt tx k w) as [[[r|e] w1] t1];
      simpl in A; simpl.
    + constructor. exact A.
    + destruct (code_is e "INSUFFICIENT_FUNDS") eqn:C1; simpl.
      { apply loop_insufficient_funds; assumption. }
      destruct (code_is e "NONCE_EXPIRED") eqn:C2; simpl.
      { apply loop_nonce_expired; assumption. }
      assert (T : terminal e = false) by (unfold terminal; rewrite C1, C2; reflexivity).
      destruct (Nat.eqb_spec (S k) m) as [E|N]; simpl.
      { apply loop_exhausted; assumption. }
      specialize (IH (S k) (setTimeout (2000 * Z.of_nat (S k)) w1)).
      destruct (EVMSwapExecutor.retryLoop tx m fuel (S k)
                  (setTimeout (2000 * Z.of_nat (S k)) w1))
        as [[r2 w2] t2].
      simpl in *.
      exact (loop_retry A T N IH).
Qed.

Lemma approval_attempt_has_shape
      (token spender : string) (amount : Z) (w : W) :
  ApprovalAttemptTrace token spender amount
    (outcome (EVMApproveExecutor.attempt token spender amount w))
    (trace (EVMApproveExecutor.attempt token spender amount w)).
Proof.
  unfold EVMApproveExecutor.attempt. unmonad.
  destruct (getFeeData w) as [[fd|e] w1]; simpl; [|constructor].
  fold (baseFeeOf fd). fold (priorityFeeOf fd). fold (overridesOf fd).
  destruct (approve token spender amount (overridesOf fd) w1)
    as [[resp|e] w2]; simpl; [|constructor].
  destruct (wait (hash resp) w2) as [[r|e] w3]; simpl; constructor.
Qed.

Lemma approval_loop_has_shape
      (token spender : string) (amount : Z) (m fuel : nat) :
  forall (k : nat) (w : W),
    ApprovalLoopTrace token spender amount m fuel k
      (outcome (EVMApproveExecutor.retryLoop token spender amount m fuel k w))
      (trace (EVMApproveExecutor.retryLoop token spender amount m fuel k w)).
Proof.
  induction fuel as [|fuel IH]; intros k w; simpl.
  - unmonad. simpl. constructor.
  - unmonad.
    pose proof (approval_attempt_has_shape token spender amount w) as A.
    destruct (EVMApproveExecutor.attempt token spender amount w)
      as [[[r|e] w1] t1]; simpl in A; simpl.
    + constructor. exact A.
    + destruct (Nat.eqb_spec (S k) m) as [E|N]; simpl.
      { apply approval_loop_exhausted; assumption. }
      specialize (IH (S k) (setTimeout (2000 * Z.of_nat (S k)) w1)).
      destruct (EVMApproveExecutor.retryLoop token spender amount m fuel
                  (S k) (setTimeout (2000 * Z.of_nat (S k)) w1))
        as [[r2 w2] t2].
      simpl in *.
      exact (approval_loop_retry A N IH).
Qed.
End ShapeFacts.

(** ** Facts read off the shapes *)

Lemma requests_app (t1 t2 : list Event) :
  requests (t1 ++ t2) = requests t1 ++ requests t2.
Proof.
  induction t1 as [|e t1 IH]; simpl; [reflexivity|].
  destruct e; simpl; rewrite ?IH; reflexivity.
Qed.

Lemma approveCalls_app (t1 t2 : list Event) :
  approveCalls (t1 ++ t2) = approveCalls t1 ++ approveCalls t2.
Proof.
  induction t1 as [|e t1 IH]; simpl; [reflexivity|].
  destruct e; simpl; rewrite ?IH; reflexivity.
Qed.

Lemma failureLines_app (t1 t2 : list Event) :
  failureLines (t1 ++ t2) = failureLines t1 ++ failureLines t2.
Proof.
  induction t1 as [|e t1 IH]; simpl; [reflexivity|].
  destruct e as [| | | | | | | | | | |c]; simpl; rewrite ?IH; try reflexivity.
  destruct c; simpl; rewrite ?IH; reflexivity.
Qed.

Lemma retryDelays_app (t1 t2 : list Event) :
  retryDelays (t1 ++ t2) = retryDelays t1 ++ retryDelays t2.
Proof.
  induction t1 as [|e t1 IH]; simpl; [reflexivity|].
  destruct e as [| | | | | | | | | | |c]; simpl; rewrite ?IH; try reflexivity.
  destruct c; simpl; rewrite ?IH; reflexivity.
Qed.

Lemma pollsFollow_app (t1 t2 : list Event) (s : option string) :
  pollsFollow s (t1 ++ t2) =
  match pollsFollow s t1 with
  | Some s' => pollsFollow s' t2
  | None => None
  end.
Proof.
  revert s. induction t1 as [|e t1 IH]; intros s; simpl.
  - reflexivity.
  - destruct (followStep s e); [apply IH | reflexivity].
Qed.

Lemma pausesFollow_skip (t t' : list Event) :
  Forall announcesNoDelay t ->
  pausesFollow (t ++ t') = pausesFollow t'.
Proof.
  induction 1 as [|e t E _ IH]; simpl; [reflexivity|].
  destruct e as [| | | | | | | | | | |c]; try exact IH.
  destruct c; try exact IH. destruct E.
Qed.

Section ShapeReadings.
Context {W : Type} `{Environment W}.

Lemma poll_shape_facts (h : string) (f a : nat)
      (res : result Receipt) (t : list Event) :
  PollTrace h f a res t ->
  requests t = [] /\
  failureLines t = [] /\
  retryDelays t = [] /\
  Forall announcesNoDelay t /\
  pollsFollow (Some h) t = Some (Some h) /\
  lastSent t = None /\
  (forall r, res = Ok r -> In (EvGetTransactionReceipt h (Ok (Some r))) t).
Proof.
  induction 1; simpl; rewrite ?String.eqb_refl;
    repeat match goal with
           | H : _ /\ _ |- _ => destruct H
           end;
    repeat split; auto; try discriminate;
    try (repeat constructor; assumption);
    try (intros r0 E; injection E as <-; auto).
  - match goal with L : lastSent _ = None |- _ => rewrite L; reflexivity end.
  - intros r0 E. right. right. right. right. auto.
Qed.

Lemma attempt_shape_facts (tx : TxData) (k : nat)
      (res : result Receipt) (t : list Event) :
  AttemptTrace tx k res t ->
  Forall (sameIntent tx) (requests t) /\
  failureLines t = [] /\
  retryDelays t = [] /\
  Forall announcesNoDelay t /\
  (exists s, pollsFollow None t = Some s) /\
  (forall r, res = Ok r ->
     exists resp,
       lastSent t = Some (Ok resp) /\
       In (EvGetTransactionReceipt (hash resp) (Ok (Some r))) t).
Proof.
  assert (I : forall c fd v g,
             valueOf tx = Ok v -> gasOf tx = Ok g ->
             sameIntent tx (requestOf tx k c fd v g)).
  { intros c fd v g V G. unfold sameIntent. simpl. repeat split; auto.
    exists g. auto. }
  destruct 1 as [e | c e | c fd e V | c fd v e V G | c fd v g e V G
                 | c fd v g resp res t V G P]; simpl.
  1-4: repeat split; try (repeat constructor; fail);
       try (eexists; reflexivity); discriminate.
  - split; [constructor; [apply I; assumption | constructor]|].
    repeat split; try (repeat constructor; fail);
      try (eexists; reflexivity); discriminate.
  - destruct (poll_shape_facts P) as (P1 & P2 & P3 & P4 & P5 & P6 & P7).
    rewrite P1, P2, P3, P5, P6.
    split; [constructor; [apply I; assumption | constructor]|].
    repeat split; auto.
    + repeat constructor; assumption.
    + eexists; reflexivity.
    + intros r E. exists resp. split; [reflexivity|].
      do 10 right. apply P7. exact E.
Qed.

Lemma loop_shape_facts (tx : TxData) (m f k : nat)
      (res : result Receipt) (t : list Event) :
  LoopTrace tx m f k res t ->
  (k + f = m)%nat ->
  Forall (sameIntent tx) (requests t) /\
  (exists j r,
      failureLines t = seq (S k) j /\
      retryDelays t = delaysFrom (S k) r /\
      (j <= f)%nat /\
      pausesFor res j r /\
      (f <> 0%nat -> forall e, res = Thrown e -> j <> 0%nat)) /\
  pausesFollow t = true /\
  (exists s, pollsFollow None t = Some s) /\
  (forall x, res = Ok x ->
     exists resp,
       lastSent t = Some (Ok resp) /\
       In (EvGetTransactionReceipt (hash resp) (Ok (Some x))) t).
Proof.
  induction 1 as [k | f k r t A | f k e t A C | f k e t A C1 C2
                  | f k e t A T E | f k e t res t' A T N L IH]; intros M.
  - simpl. repeat split; try constructor; try discriminate.
    + exists 0%nat, 0%nat. simpl.
      repeat split; auto; try (intros F; elim F; reflexivity).
    + eexists; reflexivity.
  - destruct (attempt_shape_facts A) as (A1 & A2 & A3 & A4 & A5 & A6).
    repeat split; auto.
    + exists 0%nat, 0%nat. simpl. rewrite A2, A3.
      repeat split; auto; [lia | discriminate].
    + rewrite <- (app_nil_r t). rewrite pausesFollow_skip; auto.
  - destruct (attempt_shape_facts A) as (A1 & A2 & A3 & A4 & [s A5] & A6).
    rewrite requests_app, failureLines_app, retryDelays_app, pollsFollow_app.
    rewrite A2, A3, A5, pausesFollow_skip by assumption. simpl.
    rewrite app_nil_r.
    repeat split; auto; try discriminate; try (eexists; reflexivity).
    exists 1%nat, 0%nat. simpl. repeat split; auto; lia.
  - destruct (attempt_shape_facts A) as (A1 & A2 & A3 & A4 & [s A5] & A6).
    rewrite requests_app, failureLines_app, retryDelays_app, pollsFollow_app.
    rewrite A2, A3, A5, pausesFollow_skip by assumption. simpl.
    rewrite app_nil_r.
    repeat split; auto; try discriminate; try (eexists; reflexivity).
    exists 1%nat, 0%nat. simpl. repeat split; auto; lia.
  - destruct (attempt_shape_facts A) as (A1 & A2 & A3 & A4 & [s A5] & A6).
    rewrite requests_app, failureLines_app, retryDelays_app, pollsFollow_app.
    rewrite A2, A3, A5, pausesFollow_skip by assumption. simpl.
    rewrite app_nil_r.
    repeat split; auto; try discriminate; try (eexists; reflexivity).
    exists 1%nat, 0%nat. simpl. repeat split; auto; lia.
  - destruct (attempt_shape_facts A) as (A1 & A2 & A3 & A4 & [s A5] & A6).
    destruct (IH ltac:(lia))
      as (I1 & (j & r & I2 & I3 & I4 & I5 & I5') & I6 & [s' I7] & I8).
    remember (2000 * Z.of_nat (S k)) as d eqn:D.
    rewrite requests_app, failureLines_app, retryDelays_app, pollsFollow_app.
    rewrite A2, A3, A5, pausesFollow_skip by assumption. simpl.
    rewrite I2, I3, I7, Z.eqb_refl. simpl.
    repeat split; auto.
    + apply Forall_app. split; assumption.
    + exists (S j), (S r). unfold delaysFrom. simpl. rewrite <- D.
      repeat split; auto; try lia.
      destruct res as [x|e0]; simpl in *; [lia|].
      left. specialize (I5' ltac:(lia) e0 eq_refl). lia.
    + eexists; reflexivity.
    + intros x E. destruct (I8 x E) as (resp & L1 & L2).
      exists resp. rewrite lastSent_app. simpl.
      rewrite L1. split; [reflexivity|].
      apply in_or_app. right. right. right. right. exact L2.
Qed.
End ShapeReadings.

Lemma lastSent_requests (t : list Event) :
  requests t = [] -> lastSent t = None.
Proof.
  induction t as [|e t IH]; simpl; [reflexivity|].
  destruct e; simpl; intros R; try discriminate; rewrite (IH R); reflexivity.
Qed.

(** ** The swap flow, attempt after attempt *)

Lemma swap_requests_same_intent
      {W : Type} `{Environment W}
      (config : OKXConfig) (networkConfig : ChainConfig)
      (tx : TxData) (w : W) :
  Forall (sameIntent tx)
         (requests
            (trace (EVMSwapExecutor.executeEvmTransaction
                      config networkConfig tx w))).
Proof.
  unfold EVMSwapExecutor.executeEvmTransaction.
  destruct (evm_wallet config); [|constructor].
  cbv zeta.
  eapply loop_shape_facts; [apply loop_has_shape | lia].
Qed.

(** X1.  Whatever happens between attempts, every request that one swap
    execution hands to the wallet carries the same intent: the payload and
    destination of the quote, its value (0 when the quote has none) and
    its gas estimate (0 when absent) scaled by 110/100.  Only the nonce and
    the fees change from one attempt to the next. *)
Theorem retries_resubmit_the_same_intent
        {W : Type} `{Environment W}
        (config : OKXConfig) (networkConfig : ChainConfig)
        (tx : TxData) (w : W) :
  Forall (sameIntent tx)
         (requests
            (trace (EVMSwapExecutor.executeEvmTransaction
                      config networkConfig tx w))).
Proof.
  exact (swap_requests_same_intent config networkConfig tx w).
Qed.

(** X2.  A quote whose value or gas estimate does not parse never reaches
    the wallet: nothing is submitted and the swap flow fails. *)
Theorem malformed_quote_is_never_submitted
        {W : Type} `{Environment W}
        (config : OKXConfig) (networkConfig : ChainConfig)
        (tx : TxData) (w : W) (e : Error) :
  valueOf tx = Thrown e \/ gasOf tx = Thrown e ->
  let run :=
    EVMSwapExecutor.executeEvmTransaction config networkConfig tx w in
  requests (trace run) = [] /\
  exists e', outcome run = Thrown e'.
Proof.
  intros M. cbv zeta.
  pose proof (swap_requests_same_intent config networkConfig tx w) as S.
  assert (R : requests
                (trace (EVMSwapExecutor.executeEvmTransaction
                          config networkConfig tx w)) = []).
  { destruct (requests _) as [|x l]; [reflexivity|].
    inversion S as [|? ? (_ & _ & V & g & G & _) _]; subst.
    destruct M as [M|M]; rewrite M in *; discriminate. }
  split; [exact R|].
  revert R. unfold EVMSwapExecutor.executeEvmTransaction.
  destruct (evm_wallet config); [|intros _; eexists; reflexivity].
  cbv zeta. intros R.
  destruct (loop_shape_facts
              (loop_has_shape tx (maxRetries_or_3 networkConfig)
                 (maxRetries_or_3 networkConfig - 0) 0 w) ltac:(lia))
    as (_ & _ & _ & _ & L).
  destruct (outcome _) as [x|e'] eqn:O; [|eexists; reflexivity].
  destruct (L x eq_refl) as (resp & LS & _).
  rewrite (lastSent_requests _ R) in LS. discriminate.
Qed.

(** On [insufficientFundsWorld] the quote [malformedTx], whose value is
    "ten", is prepared three times and never submitted. *)
Lemma malformed_quote_is_never_submitted_witness :
  let run :=
    EVMSwapExecutor.executeEvmTransaction
      walletConfig defaultChain malformedTx insufficientFundsWorld in
  failureLines (trace run) = [1; 2; 3]%nat /\
  requests (trace run) = [] /\
  exists e', outcome run = Thrown e'.
Proof.
  cbv zeta. split; [reflexivity|].
  eapply (@malformed_quote_is_never_submitted Script scripted).
  left. reflexivity.
Defined.

(** X3.  The failure lines of a swap execution are numbered 1, 2, ...
    without a gap and never beyond [maxRetries]; the delays announced
    between attempts grow linearly, 2000 ms times the number of failed
    attempts, each announced delay is slept at once, and the last failure
    of a flow that fails is not followed by a pause. *)
Theorem swap_backoff_is_linear
        {W : Type} `{Environment W}
        (config : OKXConfig) (networkConfig : ChainConfig)
        (tx : TxData) (w : W) :
  let run :=
    EVMSwapExecutor.executeEvmTransaction config networkConfig tx w in
  exists failed paused,
    failureLines (trace run) = seq 1 failed /\
    retryDelays (trace run) = backoff paused /\
    (failed <= maxRetries_or_3 networkConfig)%nat /\
    pausesFor (outcome run) failed paused /\
    pausesFollow (trace run) = true.
Proof.
  cbv zeta. unfold EVMSwapExecutor.executeEvmTransaction.
  destruct (evm_wallet config).
  - cbv zeta.
    destruct (loop_shape_facts
                (loop_has_shape tx (maxRetries_or_3 networkConfig)
                   (maxRetries_or_3 networkConfig - 0) 0 w) ltac:(lia))
      as (_ & (j & r & F & D & L & P & _) & PF & _).
    exists j, r. repeat split; auto. lia.
  - exists 0%nat, 0%nat. unmonad. simpl. repeat split; auto. lia.
Qed.

(** X4.  The swap flow only ever asks the provider about the transaction
    it has in flight: every receipt or pending-pool query is for the hash
    that the last submission returned.  The receipt it returns is one the
    provider gave for the hash of the last submission. *)
Theorem polls_ask_for_the_submitted_hash
        {W : Type} `{Environment W}
        (config : OKXConfig) (networkConfig : ChainConfig)
        (tx : TxData) (w : W) :
  let run :=
    EVMSwapExecutor.executeEvmTransaction config networkConfig tx w in
  (exists s, pollsFollow None (trace run) = Some s) /\
  (forall receipt,
      outcome run = Ok receipt ->
      exists response,
        lastSent (trace run) = Some (Ok response) /\
        In (EvGetTransactionReceipt (hash response) (Ok (Some receipt)))
           (trace run)).
Proof.
  cbv zeta. unfold EVMSwapExecutor.executeEvmTransaction.
  destruct (evm_wallet config).
  - cbv zeta.
    destruct (loop_shape_facts
                (loop_has_shape tx (maxRetries_or_3 networkConfig)
                   (maxRetries_or_3 networkConfig - 0) 0 w) ltac:(lia))
      as (_ & _ & _ & S & L).
    split; assumption.
  - unmonad. simpl. split; [eexists; reflexivity | discriminate].
Qed.

(** On [feeDropWorld] the receipt returned is the one given for "0xbbb",
    the hash of the second submission. *)
Lemma polls_ask_for_the_submitted_hash_witness :
  let run :=
    EVMSwapExecutor.executeEvmTransaction
      walletConfig defaultChain sampleTx feeDropWorld in
  outcome run = Ok (mkReceipt "0xbbb" 42) /\
  exists response,
    hash response = "0xbbb" /\
    lastSent (trace run) = Some (Ok response) /\
    In (EvGetTransactionReceipt (hash response)
          (Ok (Some (mkReceipt "0xbbb" 42))))
       (trace run).
Proof.
  cbv zeta. split; [reflexivity|].
  destruct (polls_ask_for_the_submitted_hash
              walletConfig defaultChain sampleTx feeDropWorld) as [_ L].
  destruct (L (mkReceipt "0xbbb" 42) eq_refl) as (resp & LS & I).
  exists resp. split; [|split; assumption].
  vm_compute in LS. injection LS as <-. reflexivity.
Defined.

(** ** The approval flow, attempt after attempt *)

Lemma approval_attempt_shape_facts
      (token spender : string) (amount : Z)
      (res : result Receipt) (t : list Event) :
  ApprovalAttemptTrace token spender amount res t ->
  Forall (sameApproval token spender amount) (approveCalls t) /\
  failureLines t = [] /\
  timers t = [] /\
  (forall t', waitsFollow (t ++ t') = waitsFollow t') /\
  (forall r, res = Ok r -> exists h, In (EvWait h (Ok r)) t).
Proof.
  destruct 1 as [e | fd e | fd resp e | fd resp r]; simpl;
    rewrite ?String.eqb_refl; simpl;
    repeat split; auto; try discriminate;
    try (constructor; [exists fd; reflexivity | constructor]).
  intros r0 E. injection E as <-. exists (hash resp). auto 10.
Qed.

Lemma approval_loop_shape_facts
      (token spender : string) (amount : Z) (m f k : nat)
      (res : result Receipt) (t : list Event) :
  ApprovalLoopTrace token spender amount m f k res t ->
  (k + f = m)%nat ->
  Forall (sameApproval token spender amount) (approveCalls t) /\
  (exists j r,
      failureLines t = seq (S k) j /\
      timers t = delaysFrom (S k) r /\
      (j <= f)%nat /\
      pausesFor res j r /\
      (f <> 0%nat -> forall e, res = Thrown e -> j <> 0%nat)) /\
  waitsFollow t = true /\
  (forall x, res = Ok x -> exists h, In (EvWait h (Ok x)) t).
Proof.
  induction 1 as [k | f k r t A | f k e t A E | f k e t res t' A N L IH];
    intros M.
  - simpl. repeat split; try constructor; try discriminate.
    exists 0%nat, 0%nat. simpl.
    repeat split; auto; try (intros F; elim F; reflexivity).
  - destruct (approval_attempt_shape_facts A) as (A1 & A2 & A3 & A4 & A5).
    repeat split; auto.
    + exists 0%nat, 0%nat. simpl. rewrite A2, A3.
      repeat split; auto; [lia | discriminate].
    + rewrite <- (app_nil_r t). rewrite A4. reflexivity.
  - destruct (approval_attempt_shape_facts A) as (A1 & A2 & A3 & A4 & A5).
    rewrite approveCalls_app, failureLines_app, timers_app, A4, A2, A3.
    simpl. rewrite app_nil_r.
    repeat split; auto; try discriminate.
    exists 1%nat, 0%nat. simpl. repeat split; auto; lia.
  - destruct (approval_attempt_shape_facts A) as (A1 & A2 & A3 & A4 & A5).
    destruct (IH ltac:(lia))
      as (I1 & (j & r & I2 & I3 & I4 & I5 & I5') & I6 & I7).
    remember (2000 * Z.of_nat (S k)) as d eqn:D.
    rewrite approveCalls_app, failureLines_app, timers_app, A4, A2, A3.
    simpl. rewrite I2, I3.
    repeat split; auto.
    + apply Forall_app. split; assumption.
    + exists (S j), (S r). unfold delaysFrom. simpl. rewrite <- D.
      repeat split; auto; try lia.
      destruct res as [x|e0]; simpl in *; [lia|].
      left. specialize (I5' ltac:(lia) e0 eq_refl). lia.
    + intros x E. destruct (I7 x E) as (h & I).
      exists h. apply in_or_app. right. right. right. exact I.
Qed.

(** X5.  In the approval flow the only pauses are the back-off pauses:
    2000 ms after the first failed attempt, 4000 ms after the second, and
    so on, one per failure line, except that the last failure of a flow
    that fails is rethrown without a pause.  Failure lines are numbered
    1, 2, ... and never exceed [maxRetries]. *)
Theorem approval_backoff_is_linear
        {W : Type} `{Environment W}
        (config : OKXConfig) (networkConfig : ChainConfig)
        (token spender : string) (amount : Z) (w : W) :
  let run :=
    EVMApproveExecutor.executeApprovalTransaction
      config networkConfig token spender amount w in
  exists failed paused,
    failureLines (trace run) = seq 1 failed /\
    timers (trace run) = backoff paused /\
    (failed <= maxRetries_or_3 networkConfig)%nat /\
    pausesFor (outcome run) failed paused.
Proof.
  cbv zeta. unfold EVMApproveExecutor.executeApprovalTransaction.
  destruct (evm_wallet config).
  - cbv zeta.
    destruct (approval_loop_shape_facts
                (approval_loop_has_shape token spender amount
                   (maxRetries_or_3 networkConfig)
                   (maxRetries_or_3 networkConfig - 0) 0 w) ltac:(lia))
      as (_ & (j & r & F & D & L & P & _) & _).
    exists j, r. repeat split; auto. lia.
  - exists 0%nat, 0%nat. unmonad. simpl. repeat split; auto. lia.
Qed.

Lemma approveCallsSeen_app (t1 t2 : list Event) (v : View) :
  approveCallsSeen v (t1 ++ t2) =
  approveCallsSeen v t1 ++ approveCallsSeen (fold_left observe t1 v) t2.
Proof.
  revert v. induction t1 as [|e t1 IH]; intros v; simpl.
  - reflexivity.
  - destruct e; simpl; rewrite IH; reflexivity.
Qed.

Lemma approveCallsSeen_calls (t : list Event) (v : View) :
  map snd (approveCallsSeen v t) = approveCalls t.
Proof.
  revert v. induction t as [|e t IH]; intros v; simpl.
  - reflexivity.
  - destruct e; simpl; rewrite IH; reflexivity.
Qed.

Lemma approval_attempt_reads_fees
      (token spender : string) (amount : Z)
      (res : result Receipt) (t : list Event) :
  ApprovalAttemptTrace token spender amount res t ->
  forall v,
    Forall (approvedFromFeesRead token spender amount)
           (approveCallsSeen v t).
Proof.
  destruct 1 as [e | fd e | fd resp e | fd resp r]; intros v; simpl;
    try constructor; try constructor;
    exists fd; simpl; split; reflexivity.
Qed.

Lemma approval_loop_reads_fees
      (token spender : string) (amount : Z) (m f k : nat)
      (res : result Receipt) (t : list Event) :
  ApprovalLoopTrace token spender amount m f k res t ->
  forall v,
    Forall (approvedFromFeesRead token spender amount)
           (approveCallsSeen v t).
Proof.
  induction 1 as [k | f k r t A | f k e t A E | f k e t res t' A N L IH];
    intros v.
  - constructor.
  - exact (approval_attempt_reads_fees A v).
  - rewrite approveCallsSeen_app. simpl. rewrite app_nil_r.
    exact (approval_attempt_reads_fees A v).
  - rewrite approveCallsSeen_app. simpl.
    apply Forall_app. split; [exact (approval_attempt_reads_fees A v)|].
    apply IH.
Qed.

(** X6.  Every [approve] call of one approval execution is made on the
    same token, for the same spender and amount, with a gas limit of
    100000 and fees scaled from the fee data that its own attempt has read
    ([feesSeen], reset by every failure line); and the confirmation awaited
    after a call is the one of the response that this very call
    returned. *)
Theorem approvals_repeat_the_same_call
        {W : Type} `{Environment W}
        (config : OKXConfig) (networkConfig : ChainConfig)
        (token spender : string) (amount : Z) (w : W) :
  let run :=
    EVMApproveExecutor.executeApprovalTransaction
      config networkConfig token spender amount w in
  Forall (sameApproval token spender amount) (approveCalls (trace run)) /\
  Forall (fun c => ov_gasLimit (snd c) = 100000) (approveCalls (trace run)) /\
  waitsFollow (trace run) = true /\
  Forall (approvedFromFeesRead token spender amount)
         (approveCallsSeen firstView (trace run)) /\
  map snd (approveCallsSeen firstView (trace run)) = approveCalls (trace run).
Proof.
  cbv zeta. unfold EVMApproveExecutor.executeApprovalTransaction.
  destruct (evm_wallet config).
  - cbv zeta.
    pose proof (approval_loop_has_shape token spender amount
                  (maxRetries_or_3 networkConfig)
                  (maxRetries_or_3 networkConfig - 0) 0 w) as Sh.
    destruct (approval_loop_shape_facts Sh ltac:(lia))
      as (S & _ & Wf & _).
    split; [exact S|]. split.
    { eapply Forall_impl; [|exact S]. intros c [fd ->]. reflexivity. }
    split; [exact Wf|]. split.
    + exact (approval_loop_reads_fees Sh firstView).
    + apply approveCallsSeen_calls.
  - unmonad. simpl. repeat split; constructor.
Qed.

(** ** [handleTokenApproval] *)
Section HandleFacts.
Context {W : Type} `{Environment W}.
Variable config : OKXConfig.
Variable networkConfig : ChainConfig.

(** Once the address, the allowance and the amount are known and the
    allowance falls short, the flow is the approval loop, its hash
    returned or its error logged and rethrown. *)
Lemma handle_runs_the_loop
      (chain token amount : string) (w w1 w2 : W)
      (wallet : EVMWallet) (response : APIResponse) (dex : string)
      (currentAllowance requiredAmount : Z) :
  evm_wallet config = Some wallet ->
  request "GET" "/api/v5/dex/aggregator/supported/chain" chain w
    = (Ok response, w1) ->
  dexAddressOf response = Some dex ->
  allowance token (address wallet) dex w1 = (Ok currentAllowance, w2) ->
  BigNumber_from amount = Ok requiredAmount ->
  currentAllowance < requiredAmount ->
  let run :=
    EVMApproveExecutor.handleTokenApproval
      config networkConfig chain token amount w in
  let inner :=
    EVMApproveExecutor.executeApprovalTransaction
      config networkConfig token dex requiredAmount w2 in
  let prefix :=
    [EvRequest "GET" "/api/v5/dex/aggregator/supported/chain" chain
       (Ok response);
     EvAllowance token (address wallet) dex (Ok currentAllowance)] in
  match outcome inner with
  | Ok r =>
      outcome run = Ok (transactionHash r) /\
      trace run = prefix ++ trace inner
  | Thrown e =>
      outcome run = Thrown e /\
      trace run = prefix ++ trace inner ++ [EvConsole (ErrApprovalFailed e)]
  end.
Proof.
  intros Hw Hr Hd Ha Hb Hlt. cbv zeta.
  unfold EVMApproveExecutor.handleTokenApproval,
    EVMApproveExecutor.getDexContractAddress,
    EVMApproveExecutor.getAllowance.
  rewrite Hw. unmonad. rewrite Hr. simpl.
  fold (dexAddressOf response). rewrite Hd. simpl.
  rewrite Ha. simpl. rewrite Hb. simpl.
  destruct (Z.geb_spec currentAllowance requiredAmount) as [Hge|_]; [lia|].
  destruct (EVMApproveExecutor.executeApprovalTransaction
              config networkConfig token dex requiredAmount w2)
    as [[[r|e] w3] t3]; simpl.
  - rewrite app_nil_r. split; reflexivity.
  - split; reflexivity.
Qed.
End HandleFacts.

(** X7.  When the allowance falls short of the amount asked,
    [handleTokenApproval] approves exactly what was asked: every [approve]
    call is on the given token, for the spender that the chain endpoint
    named and the amount parsed from the request.  A hash it returns is
    the transaction hash of a receipt that a [wait] produced; an error it
    throws is logged as "Approval execution failed" last of all. *)
Theorem approval_is_submitted_as_asked
        {W : Type} `{Environment W}
        (config : OKXConfig) (networkConfig : ChainConfig)
        (chain token amount : string) (w w1 w2 : W)
        (wallet : EVMWallet) (response : APIResponse) (dex : string)
        (currentAllowance requiredAmount : Z) :
  evm_wallet config = Some wallet ->
  request "GET" "/api/v5/dex/aggregator/supported/chain" chain w
    = (Ok response, w1) ->
  dexAddressOf response = Some dex ->
  allowance token (address wallet) dex w1 = (Ok currentAllowance, w2) ->
  BigNumber_from amount = Ok requiredAmount ->
  currentAllowance < requiredAmount ->
  let run :=
    EVMApproveExecutor.handleTokenApproval
      config networkConfig chain token amount w in
  Forall (sameApproval token dex requiredAmount) (approveCalls (trace run)) /\
  (forall h, outcome run = Ok h ->
             exists x r, In (EvWait x (Ok r)) (trace run) /\
                         h = transactionHash r) /\
  (forall e, outcome run = Thrown e ->
             exists t, trace run = t ++ [EvConsole (ErrApprovalFailed e)]).
Proof.
  intros Hw Hr Hd Ha Hb Hlt. cbv zeta.
  pose proof (handle_runs_the_loop config networkConfig chain token amount
                w Hw Hr Hd Ha Hb Hlt) as R.
  cbv zeta in R.
  assert (S : Forall (sameApproval token dex requiredAmount)
                (approveCalls
                   (trace (EVMApproveExecutor.executeApprovalTransaction
                             config networkConfig token dex requiredAmount
                             w2))) /\
              forall x, outcome (EVMApproveExecutor.executeApprovalTransaction
                                   config networkConfig token dex
                                   requiredAmount w2) = Ok x ->
                        exists h, In (EvWait h (Ok x))
                                     (trace (EVMApproveExecutor.executeApprovalTransaction
                                               config networkConfig token dex
                                               requiredAmount w2))).
  { unfold EVMApproveExecutor.executeApprovalTransaction. rewrite Hw.
    cbv zeta.
    destruct (approval_loop_shape_facts
                (approval_loop_has_shape token dex requiredAmount
                   (maxRetries_or_3 networkConfig)
                   (maxRetries_or_3 networkConfig - 0) 0 w2) ltac:(lia))
      as (S1 & _ & _ & S2).
    split; assumption. }
  destruct S as [S1 S2].
  destruct (outcome (EVMApproveExecutor.executeApprovalTransaction
                       config networkConfig token dex requiredAmount w2))
    as [r|e] eqn:O; destruct R as [R1 R2]; rewrite R1, R2.
  - split; [|split].
    + rewrite approveCalls_app. simpl. exact S1.
    + intros h E. injection E as <-.
      destruct (S2 r eq_refl) as (x & I).
      exists x, r. split; [|reflexivity]. right. right. exact I.
    + discriminate.
  - split; [|split].
    + rewrite approveCalls_app. simpl.
      rewrite approveCalls_app. simpl. rewrite app_nil_r. exact S1.
    + discriminate.
    + intros e' E. injection E as <-.
      eexists. rewrite app_assoc. reflexivity.
Qed.

(** On [approvalRetryWorld] the first [approve] is rejected and the second
    is confirmed: both calls are for "0xDex" and 500, and the hash
    returned is the one of the receipt. *)
Lemma approval_is_submitted_as_asked_witness :
  let run :=
    EVMApproveExecutor.handleTokenApproval
      walletConfig defaultChain "1" "0xToken" "500" approvalRetryWorld in
  outcome run = Ok "0xccc" /\
  List.length (approveCalls (trace run)) = 2%nat /\
  Forall (sameApproval "0xToken" "0xDex" 500) (approveCalls (trace run)) /\
  exists x r, In (EvWait x (Ok r)) (trace run) /\ "0xccc" = transactionHash r.
Proof.
  cbv zeta.
  destruct (@approval_is_submitted_as_asked
              Script scripted walletConfig defaultChain "1" "0xToken" "500"
              approvalRetryWorld _ _ (mkWallet "0xOwner") supportedChain
              "0xDex" 0 500 eq_refl eq_refl eq_refl eq_refl eq_refl
              ltac:(lia))
    as (S & O & _).
  split; [reflexivity|]. split; [reflexivity|]. split; [exact S|].
  apply O. reflexivity.
Defined.

(** X8.  When the spender cannot be found, because the chain endpoint
    rejects or because its answer names no approve address, (an absent or
    empty list, an absent or empty address), [handleTokenApproval] logs
    the error and fails with it before it reads any allowance: the request
    is the only call made. *)
Theorem dex_lookup_failure_stops_the_approval
        {W : Type} `{Environment W}
        (config : OKXConfig) (networkConfig : ChainConfig)
        (chain token amount : string) (w : W) (wallet : EVMWallet) :
  evm_wallet config = Some wallet ->
  let run :=
    EVMApproveExecutor.handleTokenApproval
      config networkConfig chain token amount w in
  (forall e w1,
      request "GET" "/api/v5/dex/aggregator/supported/chain" chain w
        = (Thrown e, w1) ->
      outcome run = Thrown e /\
      world run = w1 /\
      trace run =
        [EvRequest "GET" "/api/v5/dex/aggregator/supported/chain" chain
           (Thrown e);
         EvConsole (ErrDexAddress e)]) /\
  (forall response w1,
      request "GET" "/api/v5/dex/aggregator/supported/chain" chain w
        = (Ok response, w1) ->
      dexAddressOf response = None ->
      let e :=
        newError ("No dex contract address found for chain " ++ chain)%string
      in
      outcome run = Thrown e /\
      world run = w1 /\
      trace run =
        [EvRequest "GET" "/api/v5/dex/aggregator/supported/chain" chain
           (Ok response);
         EvConsole (ErrDexAddress e)]).
Proof.
  intros Hw. cbv zeta.
  unfold EVMApproveExecutor.handleTokenApproval,
    EVMApproveExecutor.getDexContractAddress.
  rewrite Hw. unmonad. split.
  - intros e w1 R. rewrite R. simpl. repeat split.
  - intros response w1 R D. rewrite R. simpl.
    fold (dexAddressOf response). rewrite D. simpl. repeat split.
Qed.

(** On [noDexAddressWorld] the endpoint lists a chain without an approve
    address; on the empty script the request itself is rejected. *)
Lemma dex_lookup_failure_stops_the_approval_witness :
  outcome (EVMApproveExecutor.handleTokenApproval
             walletConfig defaultChain "1" "0xToken" "500" noDexAddressWorld)
    = Thrown (newError "No dex contract address found for chain 1") /\
  outcome (EVMApproveExecutor.handleTokenApproval
             walletConfig defaultChain "1" "0xToken" "500" emptyScript)
    = Thrown unscripted.
Proof.
  split.
  - destruct (@dex_lookup_failure_stops_the_approval
                Script scripted walletConfig defaultChain "1" "0xToken" "500"
                noDexAddressWorld (mkWallet "0xOwner") eq_refl) as [_ B].
    exact (proj1 (B _ _ eq_refl eq_refl)).
  - destruct (@dex_lookup_failure_stops_the_approval
                Script scripted walletConfig defaultChain "1" "0xToken" "500"
                emptyScript (mkWallet "0xOwner") eq_refl) as [A _].
    exact (proj1 (A _ _ eq_refl)).
Defined.

(** X9.  The allowance is read before the amount is looked at.  When the
    allowance query rejects, or when it answers and the amount does not
    parse, [handleTokenApproval] fails with that error, silently (no log
    line) and without submitting anything. *)
Theorem approval_stops_before_submitting
        {W : Type} `{Environment W}
        (config : OKXConfig) (networkConfig : ChainConfig)
        (chain token amount : string) (w w1 : W)
        (wallet : EVMWallet) (response : APIResponse) (dex : string) :
  evm_wallet config = Some wallet ->
  request "GET" "/api/v5/dex/aggregator/supported/chain" chain w
    = (Ok response, w1) ->
  dexAddressOf response = Some dex ->
  let run :=
    EVMApproveExecutor.handleTokenApproval
      config networkConfig chain token amount w in
  (forall e w2,
      allowance token (address wallet) dex w1 = (Thrown e, w2) ->
      outcome run = Thrown e /\
      trace run =
        [EvRequest "GET" "/api/v5/dex/aggregator/supported/chain" chain
           (Ok response);
         EvAllowance token (address wallet) dex (Thrown e)]) /\
  (forall a w2 e,
      allowance token (address wallet) dex w1 = (Ok a, w2) ->
      BigNumber_from amount = Thrown e ->
      outcome run = Thrown e /\
      trace run =
        [EvRequest "GET" "/api/v5/dex/aggregator/supported/chain" chain
           (Ok response);
         EvAllowance token (address wallet) dex (Ok a)]).
Proof.
  intros Hw Hr Hd. cbv zeta.
  unfold EVMApproveExecutor.handleTokenApproval,
    EVMApproveExecutor.getDexContractAddress,
    EVMApproveExecutor.getAllowance.
  rewrite Hw. unmonad. rewrite Hr. simpl.
  fold (dexAddressOf response). rewrite Hd. simpl. split.
  - intros e w2 A. rewrite A. simpl. split; reflexivity.
  - intros a w2 e A B. rewrite A. simpl. rewrite B. simpl.
    split; reflexivity.
Qed.

(** On [alreadyApprovedWorld] the amount "lots" does not parse. *)
Lemma approval_stops_before_submitting_witness :
  let run :=
    EVMApproveExecutor.handleTokenApproval
      walletConfig defaultChain "1" "0xToken" "lots" alreadyApprovedWorld in
  outcome run =
    Thrown (mkError (Some "INVALID_ARGUMENT") "invalid BigNumber string") /\
  submitted (trace run) = 0%nat.
Proof.
  cbv zeta.
  destruct (@approval_stops_before_submitting
              Script scripted walletConfig defaultChain "1" "0xToken" "lots"
              alreadyApprovedWorld _ (mkWallet "0xOwner") supportedChain
              "0xDex" eq_refl eq_refl eq_refl) as [_ B].
  destruct (B 1000 _ _ eq_refl eq_refl) as [O T].
  split; [exact O|]. rewrite T. reflexivity.
Defined.

(** ** The public entry points *)

(** X10.  [executeSwap] looks at the first quote only and refuses bad
    input before it touches anything: without a first quote or without
    its router result it throws "Invalid swap data: missing router
    result", with a router result but no transaction data "Missing
    transaction data"; in both cases no call is made, nothing is logged
    and the world is unchanged.  Quotes after the first never matter. *)
Theorem invalid_swap_data_is_refused
        {W : Type} `{Environment W}
        (config : OKXConfig) (networkConfig : ChainConfig)
        (displayAmount : string -> string -> string) (SwapParams : Type)
        (swapData : SwapResponseData) (params : SwapParams) (w : W) :
  let run d :=
    EVMSwapExecutor.executeSwap
      config networkConfig displayAmount d params w in
  match swap_data swapData with
  | Some (q :: others) =>
      match routerResult q, tx q with
      | None, _ => run swapData = (Thrown InvalidSwapData, w, [])
      | Some _, None => run swapData = (Thrown MissingTransactionData, w, [])
      | Some _, Some _ =>
          run swapData = run (mkSwapResponseData (Some [q]))
      end
  | Some [] | None => run swapData = (Thrown InvalidSwapData, w, [])
  end.
Proof.
  cbv zeta. unfold EVMSwapExecutor.executeSwap.
  destruct (swap_data swapData) as [[|q qs]|]; try reflexivity.
  simpl.
  destruct (routerResult q); [|reflexivity].
  destruct (tx q); reflexivity.
Qed.

Section SwapFailedLine.
Context {W : Type} `{Environment W}.

Lemma poll_never_reports (h : string) (f a : nat)
      (res : result Receipt) (t : list Event) :
  PollTrace h f a res t -> Forall notSwapFailed t.
Proof.
  induction 1; repeat (constructor; simpl; auto).
Qed.

Lemma attempt_never_reports (tx : TxData) (k : nat)
      (res : result Receipt) (t : list Event) :
  AttemptTrace tx k res t -> Forall notSwapFailed t.
Proof.
  destruct 1 as [| | | | | c fd v g resp res t V G P];
    try (repeat (constructor; simpl; auto); fail).
  apply Forall_app. split.
  - repeat (constructor; simpl; auto).
  - exact (poll_never_reports P).
Qed.

Lemma loop_never_reports (tx : TxData) (m f k : nat)
      (res : result Receipt) (t : list Event) :
  LoopTrace tx m f k res t -> Forall notSwapFailed t.
Proof.
  induction 1 as [k | f k r t A | f k e t A C | f k e t A C1 C2
                  | f k e t A T E | f k e t res t' A T N L IH];
    try (pose proof (attempt_never_reports A) as R).
  - constructor.
  - exact R.
  - apply Forall_app. split; [exact R|]. repeat (constructor; simpl; auto).
  - apply Forall_app. split; [exact R|]. repeat (constructor; simpl; auto).
  - apply Forall_app. split; [exact R|]. repeat (constructor; simpl; auto).
  - apply Forall_app. split; [exact R|].
    apply Forall_app. split; [repeat (constructor; simpl; auto) | exact IH].
Qed.
End SwapFailedLine.

(** X11.  How [executeSwap] ends.  A result it returns is formatted from
    the router result of the first quote and from a receipt that the
    provider gave in this run, and then no failure is logged by
    [executeSwap].  An error it throws was either raised on the input,
    before anything happened, or is logged as "Swap execution failed" as
    the last event of the run. *)
Theorem swap_outcome_is_reported
        {W : Type} `{Environment W}
        (config : OKXConfig) (networkConfig : ChainConfig)
        (displayAmount : string -> string -> string) (SwapParams : Type)
        (swapData : SwapResponseData) (params : SwapParams) (w : W) :
  let run :=
    EVMSwapExecutor.executeSwap
      config networkConfig displayAmount swapData params w in
  (forall result,
      outcome run = Ok result ->
      exists q others route receipt h,
        swap_data swapData = Some (q :: others) /\
        routerResult q = Some route /\
        In (EvGetTransactionReceipt h (Ok (Some receipt))) (trace run) /\
        result =
          EVMSwapExecutor.formatSwapResult
            networkConfig displayAmount (transactionHash receipt) route /\
        forall e, ~ In (EvConsole (ErrSwapFailed e)) (trace run)) /\
  (forall e,
      outcome run = Thrown e ->
      (trace run = [] /\ world run = w /\
       (e = InvalidSwapData \/ e = MissingTransactionData)) \/
      exists t, trace run = t ++ [EvConsole (ErrSwapFailed e)]).
Proof.
  cbv zeta. unfold EVMSwapExecutor.executeSwap.
  destruct (swap_data swapData) as [[|q qs]|] eqn:SD;
    try (split; [discriminate|];
         intros e E; left; injection E as <-; auto; fail).
  destruct (routerResult q) as [route|] eqn:RQ;
    [|split; [discriminate|];
      intros e E; left; injection E as <-; auto].
  destruct (tx q) as [t|];
    [|split; [discriminate|];
      intros e E; left; injection E as <-; auto].
  assert (L : forall x,
             outcome (EVMSwapExecutor.executeEvmTransaction
                        config networkConfig t w) = Ok x ->
             (exists h, In (EvGetTransactionReceipt h (Ok (Some x)))
                           (trace (EVMSwapExecutor.executeEvmTransaction
                                     config networkConfig t w))) /\
             Forall notSwapFailed
                    (trace (EVMSwapExecutor.executeEvmTransaction
                              config networkConfig t w))).
  { unfold EVMSwapExecutor.executeEvmTransaction.
    destruct (evm_wallet config); [|unmonad; discriminate].
    cbv zeta. intros x O.
    pose proof (loop_has_shape t (maxRetries_or_3 networkConfig)
                  (maxRetries_or_3 networkConfig - 0) 0 w) as S.
    destruct (loop_shape_facts S ltac:(lia)) as (_ & _ & _ & _ & R).
    destruct (R x O) as (resp & _ & I).
    split; [eauto | exact (loop_never_reports S)]. }
  unmonad.
  destruct (EVMSwapExecutor.executeEvmTransaction config networkConfig t w)
    as [[[r|e] w1] t1]; simpl in *.
  - split; [|discriminate].
    intros result E. injection E as <-.
    destruct (L r eq_refl) as [[h I] NF].
    exists q, qs, route, r, h. rewrite app_nil_r.
    split; [reflexivity|]. split; [exact RQ|]. split; [exact I|].
    split; [reflexivity|].
    intros e I'. rewrite Forall_forall in NF. exact (NF _ I').
  - split; [discriminate|].
    intros e' E. injection E as <-. right. eexists. reflexivity.
Qed.

Section PublicBounds.
Context {W : Type} `{Environment W}.
Variable config : OKXConfig.
Variable networkConfig : ChainConfig.

Lemma swap_flow_bounded (tx : TxData) (w : W) :
  let run :=
    EVMSwapExecutor.executeEvmTransaction config networkConfig tx w in
  (submitted (trace run) <= maxRetries_or_3 networkConfig)%nat /\
  phases Idle (trace run) = Some Idle.
Proof.
  cbv zeta. unfold EVMSwapExecutor.executeEvmTransaction.
  destruct (evm_wallet config).
  - destruct (swap_loop_facts tx (maxRetries_or_3 networkConfig)
                (maxRetries_or_3 networkConfig - 0) 0 w) as (S1 & S2 & _).
    cbv zeta. split; [lia | exact S2].
  - unmonad. unfold submitted. simpl. split; [lia | reflexivity].
Qed.

Lemma approval_flow_bounded (token spender : string) (amount : Z) (w : W) :
  let run :=
    EVMApproveExecutor.executeApprovalTransaction
      config networkConfig token spender amount w in
  (submitted (trace run) <= maxRetries_or_3 networkConfig)%nat /\
  phases Idle (trace run) = Some Idle.
Proof.
  cbv zeta. unfold EVMApproveExecutor.executeApprovalTransaction.
  destruct (evm_wallet config).
  - destruct (approval_loop_facts token spender amount
                (maxRetries_or_3 networkConfig)
                (maxRetries_or_3 networkConfig - 0) 0 w) as (S1 & S2 & _).
    cbv zeta. split; [lia | exact S2].
  - unmonad. unfold submitted. simpl. split; [lia | reflexivity].
Qed.
End PublicBounds.

(** X12.  The bound on submissions holds at the public entry points too:
    whatever the input and whatever the world answers, neither
    [executeSwap] nor [handleTokenApproval] submits more than [maxRetries]
    times, and their attempts never overlap. *)
Theorem public_flows_are_bounded
        {W : Type} `{Environment W}
        (config : OKXConfig) (networkConfig : ChainConfig)
        (displayAmount : string -> string -> string) (SwapParams : Type)
        (swapData : SwapResponseData) (params : SwapParams)
        (chain token amount : string) (w : W) :
  let swap :=
    EVMSwapExecutor.executeSwap
      config networkConfig displayAmount swapData params w in
  let approval :=
    EVMApproveExecutor.handleTokenApproval
      config networkConfig chain token amount w in
  (submitted (trace swap) <= maxRetries_or_3 networkConfig)%nat /\
  phases Idle (trace swap) = Some Idle /\
  (submitted (trace approval) <= maxRetries_or_3 networkConfig)%nat /\
  phases Idle (trace approval) = Some Idle.
Proof.
  cbv zeta. split; [|split].
  - unfold EVMSwapExecutor.executeSwap.
    destruct (swap_data swapData) as [[|q qs]|];
      try (unfold submitted; simpl; lia).
    destruct (routerResult q) as [route|]; [|unfold submitted; simpl; lia].
    destruct (tx q) as [t|]; [|unfold submitted; simpl; lia].
    destruct (swap_flow_bounded config networkConfig t w) as [B _].
    unmonad.
    destruct (EVMSwapExecutor.executeEvmTransaction config networkConfig t w)
      as [[[r|e] w1] t1]; simpl in *.
    + rewrite app_nil_r. exact B.
    + rewrite submitted_app. unfold submitted at 2. simpl. lia.
  - unfold EVMSwapExecutor.executeSwap.
    destruct (swap_data swapData) as [[|q qs]|]; try reflexivity.
    destruct (routerResult q) as [route|]; [|reflexivity].
    destruct (tx q) as [t|]; [|reflexivity].
    destruct (swap_flow_bounded config networkConfig t w) as [_ B].
    unmonad.
    destruct (EVMSwapExecutor.executeEvmTransaction config networkConfig t w)
      as [[[r|e] w1] t1]; simpl in *.
    + rewrite app_nil_r. exact B.
    + rewrite phases_app, B. reflexivity.
  - unfold EVMApproveExecutor.handleTokenApproval,
      EVMApproveExecutor.getDexContractAddress,
      EVMApproveExecutor.getAllowance.
    destruct (evm_wallet config) as [wallet|] eqn:Hw;
      [|unfold submitted; simpl; split; [lia | reflexivity]].
    unmonad.
    destruct (request "GET" "/api/v5/dex/aggregator/supported/chain" chain w)
      as [[response|e] w1]; simpl;
      [|unfold submitted; simpl; split; [lia | reflexivity]].
    fold (dexAddressOf response).
    destruct (dexAddressOf response) as [dex|]; simpl;
      [|unfold submitted; simpl; split; [lia | reflexivity]].
    destruct (allowance token (address wallet) dex w1) as [[a|e] w2]; simpl;
      [|unfold submitted; simpl; split; [lia | reflexivity]].
    destruct (BigNumber_from amount) as [req|e]; simpl;
      [|unfold submitted; simpl; split; [lia | reflexivity]].
    destruct (a >=? req); simpl;
      [unfold submitted; simpl; split; [lia | reflexivity]|].
    destruct (approval_flow_bounded config networkConfig token dex req w2)
      as [B1 B2].
    destruct (EVMApproveExecutor.executeApprovalTransaction
                config networkConfig token dex req w2)
      as [[[r|e] w3] t3]; simpl in *.
    + rewrite app_nil_r. split; [exact B1 | exact B2].
    + split.
      * change (EvRequest "GET" "/api/v5/dex/aggregator/supported/chain"
                   chain (Ok response)
                 :: EvAllowance token (address wallet) dex (Ok a)
                 :: t3 ++ [EvConsole (ErrApprovalFailed e)])
          with ([EvRequest "GET" "/api/v5/dex/aggregator/supported/chain"
                   chain (Ok response);
                 EvAllowance token (address wallet) dex (Ok a)]
                ++ t3 ++ [EvConsole (ErrApprovalFailed e)]).
        rewrite !submitted_app. unfold submitted at 1 3. simpl. lia.
      * rewrite phases_app, B2. reflexivity.
Qed.

(** X13.  Without a wallet in the configuration nothing is ever sent: the
    constructors refuse the configuration, and the methods, should they be
    reached, throw "EVM wallet required" before any call.  Only
    [executeSwap] logs that error. *)
Theorem missing_wallet_is_refused
        {W : Type} `{Environment W}
        (config : OKXConfig) (networkConfig : ChainConfig)
        (displayAmount : string -> string -> string) (SwapParams : Type)
        (q : QuoteData) (others : list QuoteData)
        (route : RouterResult) (t : TxData) (params : SwapParams)
        (chain token spender amount : string) (value : Z) (w : W) :
  evm_wallet config = None ->
  routerResult q = Some route ->
  tx q = Some t ->
  EVMSwapExecutor.constructor config
    = Thrown (newError "EVM configuration required") /\
  EVMApproveExecutor.constructor config
    = Thrown (newError "EVM configuration required") /\
  EVMSwapExecutor.executeSwap config networkConfig displayAmount
    (mkSwapResponseData (Some (q :: others))) params w
    = (Thrown WalletRequired, w, [EvConsole (ErrSwapFailed WalletRequired)]) /\
  EVMApproveExecutor.handleTokenApproval
    config networkConfig chain token amount w
    = (Thrown WalletRequired, w, []) /\
  EVMApproveExecutor.executeApprovalTransaction
    config networkConfig token spender value w
    = (Thrown WalletRequired, w, []).
Proof.
  intros Hw Hr Ht.
  unfold EVMSwapExecutor.constructor, EVMApproveExecutor.constructor,
    EVMSwapExecutor.executeSwap, EVMSwapExecutor.executeEvmTransaction,
    EVMApproveExecutor.handleTokenApproval,
    EVMApproveExecutor.executeApprovalTransaction.
  simpl. rewrite Hw, Hr, Ht. repeat split.
Qed.

(** With [noWalletConfig] the sample swap is refused and logged. *)
Lemma missing_wallet_is_refused_witness :
  EVMSwapExecutor.executeSwap noWalletConfig defaultChain
    (fun amount _ => amount) sampleSwap tt feeDropWorld
  = (Thrown WalletRequired, feeDropWorld,
     [EvConsole (ErrSwapFailed WalletRequired)]) /\
  EVMApproveExecutor.handleTokenApproval
    noWalletConfig defaultChain "1" "0xToken" "500" feeDropWorld
  = (Thrown WalletRequired, feeDropWorld, []).
Proof.
  destruct (@missing_wallet_is_refused
              Script scripted noWalletConfig defaultChain
              (fun amount _ => amount) unit
              (mkQuoteData (Some sampleRoute) (Some sampleTx)) []
              sampleRoute sampleTx tt "1" "0xToken" "0xDex" "500" 500
              feeDropWorld eq_refl eq_refl eq_refl)
    as (_ & _ & S & A & _).
  split; [exact S | exact A].
Defined.

(** X14.  In the swap loop, at any attempt, an error whose code is
    INSUFFICIENT_FUNDS or NONCE_EXPIRED is replaced by a new error without
    a code ("Insufficient funds for transaction", else "Transaction nonce
    expired") and ends the flow on the spot: after the attempt only its
    failure line is written, nothing is slept and nothing is retried, and
    the world is left as the attempt left it. *)
Theorem terminal_code_is_replaced
        {W : Type} `{Environment W}
        (tx : TxData) (m fuel k : nat) (w : W) (e : Error) :
  outcome (EVMSwapExecutor.attempt tx k w) = Thrown e ->
  terminal e = true ->
  let run := EVMSwapExecutor.retryLoop tx m (S fuel) k w in
  outcome run =
    Thrown (newError (if code_is e "INSUFFICIENT_FUNDS"
                      then "Insufficient funds for transaction"
                      else "Transaction nonce expired")) /\
  world run = world (EVMSwapExecutor.attempt tx k w) /\
  trace run =
    trace (EVMSwapExecutor.attempt tx k w) ++
    [EvConsole (ErrAttemptFailed (S k) (message e))].
Proof.
  intros O T. cbv zeta. simpl. unmonad.
  destruct (EVMSwapExecutor.attempt tx k w) as [[[r|e'] w1] t1];
    simpl in *; [discriminate|].
  injection O as ->. unfold terminal in T.
  destruct (code_is e "INSUFFICIENT_FUNDS"); simpl; [auto|].
  simpl in T. rewrite T. simpl. auto.
Qed.

(** On [insufficientFundsWorld] the first attempt ends the flow. *)
Lemma terminal_code_is_replaced_witness :
  let run :=
    EVMSwapExecutor.retryLoop sampleTx 3 3 0 insufficientFundsWorld in
  outcome run = Thrown (newError "Insufficient funds for transaction") /\
  failureLines (trace run) = [1%nat] /\
  timers (trace run) = [].
Proof.
  cbv zeta.
  destruct (@terminal_code_is_replaced
              Script scripted sampleTx 3 2 0 insufficientFundsWorld
              insufficientFunds eq_refl eq_refl) as (O & _ & T).
  split; [exact O|]. rewrite T. split; reflexivity.
Defined.

(** The monitors of this part refuse what they are meant to refuse: a
    poll for another hash than the one in flight, a wait on another
    response than the one just returned, an announced delay that is not
    slept. *)
Example monitors_refuse (t : Transaction) (o : Overrides) (r : Receipt) :
  pollsFollow None
    [EvSendTransaction t (Ok (mkResponse "0xaaa"));
     EvGetTransactionReceipt "0xbbb" (Ok None)] = None /\
  pollsFollow None [EvGetTransactionReceipt "0xaaa" (Ok None)] = None /\
  waitsFollow
    [EvApprove "0xToken" "0xDex" 1 o (Ok (mkResponse "0xccc"));
     EvConsole (LogApprovalSent "0xccc"); EvWait "0xddd" (Ok r)] = false /\
  pausesFollow [EvConsole (LogRetrying 2000); EvSetTimeout 4000] = false /\
  pausesFollow [EvConsole (LogRetrying 2000); EvConsole LogPreparing] = false.
Proof.
  repeat split.
Qed.

(** ** How the flows fail *)

Lemma maxRetries_positive (networkConfig : ChainConfig) :
  (1 <= maxRetries_or_3 networkConfig)%nat.
Proof.
  unfold maxRetries_or_3.
  destruct (maxRetries networkConfig) as [[|n]|]; lia.
Qed.

Section FailureFacts.
Context {W : Type} `{Environment W}.

Lemma loop_failure_cases (tx : TxData) (m f k : nat)
      (res : result Receipt) (t : list Event) :
  LoopTrace tx m f k res t ->
  (k + f = m)%nat ->
  forall e, res = Thrown e ->
    (f = 0%nat /\ t = []) \/
    ((e = newError "Insufficient funds for transaction" \/
      e = newError "Transaction nonce expired") /\
     exists t0 n msg, t = t0 ++ [EvConsole (ErrAttemptFailed n msg)]) \/
    (terminal e = false /\
     failureLines t = seq (S k) f /\
     exists t0, t = t0 ++ [EvConsole (ErrMaxRetries e)]).
Proof.
  induction 1 as [k | f k r t A | f k e0 t A C | f k e0 t A C1 C2
                  | f k e0 t A T E | f k e0 t res t' A T N L IH];
    intros M e R.
  - left. auto.
  - discriminate.
  - right. left. injection R as <-. split; [auto|]. eauto.
  - right. left. injection R as <-. split; [auto|]. eauto.
  - right. right. injection R as <-.
    destruct (attempt_shape_facts A) as (_ & A2 & _).
    rewrite failureLines_app, A2. simpl.
    assert (f = 0%nat) by lia. subst f.
    split; [exact T|]. split; [reflexivity|].
    exists (t ++ [EvConsole (ErrAttemptFailed (S k) (message e0))]).
    rewrite <- app_assoc. reflexivity.
  - destruct (attempt_shape_facts A) as (_ & A2 & _).
    destruct (IH ltac:(lia) e R) as [[F _] | [[D (t0 & n & msg & E)] | (T' & F & t0 & E)]].
    + lia.
    + right. left. split; [exact D|].
      exists (t ++ [EvConsole (ErrAttemptFailed (S k) (message e0));
                    EvConsole (LogRetrying (2000 * Z.of_nat (S k)));
                    EvSetTimeout (2000 * Z.of_nat (S k))] ++ t0), n, msg.
      rewrite E. rewrite <- !app_assoc. reflexivity.
    + right. right. split; [exact T'|].
      rewrite failureLines_app, A2. simpl. rewrite F.
      split; [reflexivity|].
      exists (t ++ [EvConsole (ErrAttemptFailed (S k) (message e0));
                    EvConsole (LogRetrying (2000 * Z.of_nat (S k)));
                    EvSetTimeout (2000 * Z.of_nat (S k))] ++ t0).
      rewrite E. rewrite <- !app_assoc. reflexivity.
Qed.

Lemma approval_loop_failure_cases
      (token spender : string) (amount : Z) (m f k : nat)
      (res : result Receipt) (t : list Event) :
  ApprovalLoopTrace token spender amount m f k res t ->
  (k + f = m)%nat ->
  forall e, res = Thrown e ->
    (f = 0%nat /\ t = []) \/
    (failureLines t = seq (S k) f /\
     exists t0 t1,
       t = t0 ++ t1 ++
           [EvConsole (WarnApprovalAttemptFailed m (2000 * Z.of_nat m))] /\
       ApprovalAttemptTrace token spender amount (Thrown e) t1).
Proof.
  induction 1 as [k | f k r t A | f k e0 t A E | f k e0 t res t' A N L IH];
    intros M e R.
  - left. auto.
  - discriminate.
  - right. injection R as <-.
    destruct (approval_attempt_shape_facts A) as (_ & A2 & _).
    rewrite failureLines_app, A2. simpl.
    assert (f = 0%nat) by lia. subst f.
    split; [reflexivity|].
    exists [], t. rewrite E. split; [reflexivity | exact A].
  - destruct (approval_attempt_shape_facts A) as (_ & A2 & _).
    destruct (IH ltac:(lia) e R) as [[F _] | (F & t0 & t1 & E & A')].
    + lia.
    + right. rewrite failureLines_app, A2. simpl. rewrite F.
      split; [reflexivity|].
      exists (t ++ [EvConsole (WarnApprovalAttemptFailed (S k)
                                 (2000 * Z.of_nat (S k)));
                    EvSetTimeout (2000 * Z.of_nat (S k))] ++ t0), t1.
      rewrite E. rewrite <- !app_assoc. split; [reflexivity | exact A'].
Qed.
End FailureFacts.

(** X15.  The swap flow fails in one of three ways only: without a wallet;
    on a terminal code, with one of the two errors that replace it, right
    after the failure line of that attempt; or with an error that is not
    terminal, and then only after exactly [maxRetries] failure lines,
    logged as "Max retries reached" last of all.  The error raised after
    the loop is never the outcome. *)
Theorem swap_failure_is_terminal_or_exhausted
        {W : Type} `{Environment W}
        (config : OKXConfig) (networkConfig : ChainConfig)
        (tx : TxData) (w : W) (e : Error) :
  let run :=
    EVMSwapExecutor.executeEvmTransaction config networkConfig tx w in
  outcome run = Thrown e ->
  (evm_wallet config = None /\ e = WalletRequired /\ trace run = []) \/
  ((e = newError "Insufficient funds for transaction" \/
    e = newError "Transaction nonce expired") /\
   exists t0 n msg, trace run = t0 ++ [EvConsole (ErrAttemptFailed n msg)]) \/
  (terminal e = false /\
   failureLines (trace run) = seq 1 (maxRetries_or_3 networkConfig) /\
   exists t0, trace run = t0 ++ [EvConsole (ErrMaxRetries e)]).
Proof.
  cbv zeta. unfold EVMSwapExecutor.executeEvmTransaction.
  destruct (evm_wallet config).
  - cbv zeta. intros O. right.
    pose proof (maxRetries_positive networkConfig) as P.
    destruct (loop_failure_cases
                (loop_has_shape tx (maxRetries_or_3 networkConfig)
                   (maxRetries_or_3 networkConfig - 0) 0 w)
                ltac:(lia) O) as [[F _] | [D | (T & F & E)]].
    + lia.
    + left. exact D.
    + right. rewrite Nat.sub_0_r in *.
      split; [exact T|]. split; [exact F | exact E].
  - unmonad. simpl. intros O. injection O as <-. left. auto.
Qed.

(** On [allRejectedWorld] the flow fails with the third rejection after
    failure lines 1, 2 and 3. *)
Lemma swap_failure_is_terminal_or_exhausted_witness :
  let run :=
    EVMSwapExecutor.executeEvmTransaction
      walletConfig defaultChain sampleTx allRejectedWorld in
  failureLines (trace run) = [1; 2; 3]%nat /\
  exists t0, trace run = t0 ++ [EvConsole (ErrMaxRetries (rejected "3"))].
Proof.
  cbv zeta.
  destruct (@swap_failure_is_terminal_or_exhausted
              Script scripted walletConfig defaultChain sampleTx
              allRejectedWorld (rejected "3") eq_refl)
    as [(N & _) | [([D|D] & _) | (_ & F & E)]];
    try discriminate.
  split; [exact F | exact E].
Defined.

(** X16.  The approval flow never gives up early.  With a wallet, an
    error leaves [executeApprovalTransaction] only after exactly
    [maxRetries] failed attempts, whatever its code: the failure lines are
    1, ..., [maxRetries], the error is the one of the last attempt, and
    the last event is the failure line of that attempt. *)
Theorem approval_fails_only_when_exhausted
        {W : Type} `{Environment W}
        (config : OKXConfig) (networkConfig : ChainConfig)
        (wallet : EVMWallet) (token spender : string) (amount : Z)
        (w : W) (e : Error) :
  evm_wallet config = Some wallet ->
  let run :=
    EVMApproveExecutor.executeApprovalTransaction
      config networkConfig token spender amount w in
  outcome run = Thrown e ->
  failureLines (trace run) = seq 1 (maxRetries_or_3 networkConfig) /\
  exists t0 t1,
    trace run =
      t0 ++ t1 ++
      [EvConsole (WarnApprovalAttemptFailed
                    (maxRetries_or_3 networkConfig)
                    (2000 * Z.of_nat (maxRetries_or_3 networkConfig)))] /\
    ApprovalAttemptTrace token spender amount (Thrown e) t1.
Proof.
  intros Hw. cbv zeta. unfold EVMApproveExecutor.executeApprovalTransaction.
  rewrite Hw. cbv zeta. intros O.
  pose proof (maxRetries_positive networkConfig) as P.
  destruct (approval_loop_failure_cases
              (approval_loop_has_shape token spender amount
                 (maxRetries_or_3 networkConfig)
                 (maxRetries_or_3 networkConfig - 0) 0 w)
              ltac:(lia) O) as [[F _] | (F & E)].
  - lia.
  - rewrite Nat.sub_0_r in *. split; [exact F | exact E].
Qed.

(** On [insufficientFundsWorld] the approval fails with the rejection of
    its third attempt. *)
Lemma approval_fails_only_when_exhausted_witness :
  let run :=
    EVMApproveExecutor.executeApprovalTransaction
      walletConfig defaultChain "0xToken" "0xDex" 500
      insufficientFundsWorld in
  outcome run = Thrown insufficientFunds /\
  failureLines (trace run) = [1; 2; 3]%nat.
Proof.
  cbv zeta. split; [reflexivity|].
  exact (proj1 (@approval_fails_only_when_exhausted
                  Script scripted walletConfig defaultChain
                  (mkWallet "0xOwner") "0xToken" "0xDex" 500
                  insufficientFundsWorld insufficientFunds
                  eq_refl eq_refl)).
Defined.
